(** * claude-context: indexing lifecycle, path identity and the Vertex AI
      embedding provider

    A shallow embedding of
    - [packages/mcp/src/utils.ts]        ([truncateContent], [normalizePath]),
    - [packages/core/src/embedding/vertexai-embedding.ts] ([VertexAIEmbedding]),
    - the command line's [runIndex] (the lifecycle manager of one indexing run),
    and the properties the specification states about them.

    Conventions.
    - A JavaScript string is a [string]; one [ascii] stands for one code unit.
    - A JavaScript number that holds a count, a length or a dimension is a [Z];
      a number that is only stored and handed on (a progress percentage, a
      vector component) is a [Q] compared with Leibniz equality.
    - [undefined] is [None]; truthiness is written out ([truthy_string],
      [truthy_number]).
    - A call that can throw returns a [Completion]. *)

From Stdlib Require Import ZArith QArith Ascii String Lia.
From stdpp Require Import base option list strings gmap.

#[local] Open Scope Z_scope.

(* ================================================================== *)
(** * JavaScript values used by the sources *)
(* ================================================================== *)

Module Js.

(** What a [throw] can carry: an [Error] object (its [name] and [message]),
    or a value that is not an [Error] — here a string primitive. *)
Inductive Thrown : Type :=
| ErrorObject (name message : string)
| ThrownString (s : string).

(** [new Error(message)]. *)
Definition newError (message : string) : Thrown := ErrorObject "Error" message.

(** The result of a call that may throw. *)
Inductive Completion (A : Type) : Type :=
| Normal (a : A)
| Throw (e : Thrown).
Arguments Normal {A} a.
Arguments Throw {A} e.

(** [!!s] for a string: only the empty string is falsy. *)
Definition truthy_string (s : string) : bool :=
  match s with
  | EmptyString => false
  | String _ _ => true
  end.

(** [!!n] for an integer-valued number: only [0] is falsy. *)
Definition truthy_number (n : Z) : bool := negb (n =? 0).

(** [a || b] where [a : string | undefined]. *)
Definition or_string (a : option string) (b : option string) : option string :=
  match a with
  | Some s => if truthy_string s then Some s else b
  | None => b
  end.

(** [a || b] where [a : string | undefined] and [b] is a string. *)
Definition or_default (a : option string) (b : string) : string :=
  match a with
  | Some s => if truthy_string s then s else b
  | None => b
  end.

(** [error?.message]: the [message] property; a string primitive has none. *)
Definition message_of (e : Thrown) : option string :=
  match e with
  | ErrorObject _ m => Some m
  | ThrownString _ => None
  end.

(** [String(error)]: [Error.prototype.toString] for an error object. *)
Definition String_of (e : Thrown) : string :=
  match e with
  | ErrorObject n m =>
      if truthy_string n
      then (if truthy_string m then n +:+ ": " +:+ m else n)
      else m
  | ThrownString s => s
  end.

(** [error instanceof Error]. *)
Definition instanceof_Error (e : Thrown) : bool :=
  match e with
  | ErrorObject _ _ => true
  | ThrownString _ => false
  end.

(** [s.length] as a number. *)
Definition length (s : string) : Z := Z.of_nat (String.length s).

(** The property names that every plain object inherits from
    [Object.prototype]: [o[name]] finds a value under them also when [o] has
    no entry of its own for [name]. *)
Definition Object_prototype_member (name : string) : bool :=
  bool_decide
    (name ∈ [ "constructor"; "toString"; "toLocaleString"; "valueOf";
              "hasOwnProperty"; "isPrototypeOf"; "propertyIsEnumerable";
              "__defineGetter__"; "__defineSetter__";
              "__lookupGetter__"; "__lookupSetter__"; "__proto__" ]).

End Js.

(* ================================================================== *)
(** * packages/mcp/src/utils.ts *)
(* ================================================================== *)

Module Utils.

(** [content.substring(0, end)]: [end] is clamped to [0 .. content.length]. *)
Definition substring_to (content : string) (end_ : Z) : string :=
  String.substring 0 (Z.to_nat end_) content.

(** [truncateContent(content, maxLength)] for an integer [maxLength]. *)
Definition truncateContent (content : string) (maxLength : Z) : string :=
  if Js.length content <=? maxLength
  then content
  else substring_to content maxLength +:+ "...".

(** ** String primitives used by [normalizePath] *)

Definition slash : ascii := "/"%char.
Definition backslash : ascii := "\"%char.

(** [normalized.replace(/\\/g, '/')]. *)
Fixpoint replace_backslashes (s : string) : string :=
  match s with
  | EmptyString => EmptyString
  | String c s' =>
      String (if decide (c = backslash) then slash else c) (replace_backslashes s')
  end.

(** [normalized.endsWith('/')]. *)
Fixpoint endsWith_slash (s : string) : bool :=
  match s with
  | EmptyString => false
  | String c EmptyString => bool_decide (c = slash)
  | String _ s' => endsWith_slash s'
  end.

(** [normalized.slice(0, -1)]. *)
Fixpoint slice_drop_last (s : string) : string :=
  match s with
  | EmptyString => EmptyString
  | String _ EmptyString => EmptyString
  | String c s' => String c (slice_drop_last s')
  end.

(** The character class [[a-zA-Z]]. *)
Definition is_letter (c : ascii) : bool :=
  let n := N_of_ascii c in
  ((65 <=? n)%N && (n <=? 90)%N) || ((97 <=? n)%N && (n <=? 122)%N).

(** [/^[a-zA-Z]:\/$/.test(normalized)]. *)
Definition is_drive_root (s : string) : bool :=
  match s with
  | String c (String d (String e EmptyString)) =>
      is_letter c && bool_decide (d = ":"%char) && bool_decide (e = slash)
  | _ => false
  end.

(** [toLowerCase], character by character. The strings of this development
    are strings of bytes and the letters lowered are the ASCII letters [A] to
    [Z]; on a string of ASCII characters this is JavaScript's [toLowerCase].
    JavaScript also lowers the cased letters outside ASCII, which this
    definition leaves as they are. *)
Definition lower_char (c : ascii) : ascii :=
  let n := N_of_ascii c in
  if ((65 <=? n)%N && (n <=? 90)%N) then ascii_of_N (n + 32) else c.

Fixpoint toLowerCase (s : string) : string :=
  match s with
  | EmptyString => EmptyString
  | String c s' => String (lower_char c) (toLowerCase s')
  end.

(** The [while] loop of [normalizePath]; every turn that does not leave the
    loop shortens the string, so [String.length normalized] turns suffice
    (see [strip_trailing_slashes_exit]). *)
Fixpoint strip_loop (fuel : nat) (normalized : string) : string :=
  match fuel with
  | O => normalized
  | S fuel' =>
      if (1 <? Js.length normalized) && endsWith_slash normalized
      then
        if is_drive_root normalized
        then normalized
        else strip_loop fuel' (slice_drop_last normalized)
      else normalized
  end.

Definition strip_trailing_slashes (normalized : string) : string :=
  strip_loop (String.length normalized) normalized.

(** The condition under which the [while] loop is left. *)
Definition loop_exited (normalized : string) : bool :=
  negb ((1 <? Js.length normalized) && endsWith_slash normalized)
  || is_drive_root normalized.

(** ** [normalizePath] and [ensureAbsolutePath]

    [path.resolve] and [process.platform] belong to the runtime: they are the
    parameters of the section. *)
Section NormalizePath.
Variable resolve : string -> string.
Variable win32 : bool.

Definition normalizePath (inputPath : string) : string :=
  if negb (Js.truthy_string inputPath)
  then inputPath
  else
    let normalized := resolve inputPath in
    let normalized := replace_backslashes normalized in
    let normalized := strip_trailing_slashes normalized in
    let normalized := if win32 then toLowerCase normalized else normalized in
    normalized.

Definition ensureAbsolutePath (inputPath : string) : string :=
  normalizePath inputPath.
End NormalizePath.

(** ** Node's [path.posix.resolve] for one argument

    The path is split at ['/'], empty and ["."] segments are dropped, [".."]
    removes the segment before it, and the rest is joined again. *)
Module Posix.

Fixpoint split (s : string) : list string :=
  match s with
  | EmptyString => [EmptyString]
  | String c s' =>
      if decide (c = slash)
      then EmptyString :: split s'
      else
        match split s' with
        | seg :: rest => String c seg :: rest
        | [] => [String c EmptyString]
        end
  end.

(** One segment of [normalizeString]; [stack] holds the segments kept so
    far, the latest first. *)
Definition normalize_step (allowAboveRoot : bool) (stack : list string)
    (seg : string) : list string :=
  if decide (seg = "" \/ seg = ".")
  then stack
  else if decide (seg = "..")
  then
    match stack with
    | top :: below =>
        if decide (top = "..")
        then (if allowAboveRoot then ".." :: stack else stack)
        else below
    | [] => if allowAboveRoot then [".."] else []
    end
  else seg :: stack.

(** [normalizeString] on the segments of the path. *)
Definition normalizeString (allowAboveRoot : bool) (segs : list string)
  : list string :=
  rev (fold_left (normalize_step allowAboveRoot) segs []).

Definition isAbsolute (p : string) : bool :=
  match p with
  | String c _ => bool_decide (c = slash)
  | EmptyString => false
  end.

(** One turn of the loop of [resolve] over its arguments, last first. *)
Definition resolve_step (path : string) (acc : string * bool) : string * bool :=
  if negb (Js.truthy_string path)
  then acc
  else (path +:+ "/" +:+ acc.1, isAbsolute path).

(** [path.resolve(p)] in a process whose working directory is [cwd]. *)
Definition resolve (cwd : string) (p : string) : string :=
  let acc := resolve_step p (EmptyString, false) in
  let acc := if acc.2 then acc else resolve_step cwd acc in
  let resolvedPath :=
    String.concat "/" (normalizeString (negb acc.2) (split acc.1)) in
  if acc.2
  then "/" +:+ resolvedPath
  else if Js.truthy_string resolvedPath then resolvedPath else ".".

End Posix.

End Utils.

(* ================================================================== *)
(** * packages/core/src/embedding/vertexai-embedding.ts *)
(* ================================================================== *)

Module VertexAI.
Import Js.

Record VertexAIEmbeddingConfig : Type := {
  model : string;
  projectId : option string;
  location : option string;
  outputDimensionality : option Z;
}.

(** An entry of the registry returned by [getSupportedModels]. *)
Record ModelInfo : Type := {
  info_dimension : Z;
  contextLength : Z;
  description : string;
  supportedDimensions : option (list Z);
}.

(** The options handed to [new GoogleGenAI]. *)
Record GoogleGenAI : Type := {
  vertexai : bool;
  project : string;
  client_location : string;
}.

Record EmbeddingVector : Type := {
  vector : list Q;
  vec_dimension : Z;
}.

(** The request and the response of [client.models.embedContent]. *)
Record EmbedContentParameters : Type := {
  req_model : string;
  contents : list string;
  req_outputDimensionality : Z;
}.

Record ContentEmbedding : Type := {
  values : option (list Q);
}.

Record EmbedContentResponse : Type := {
  embeddings : option (list ContentEmbedding);
}.

(** The fields of a [VertexAIEmbedding] instance. *)
Record VertexAIEmbedding : Type := {
  client : GoogleGenAI;
  config : VertexAIEmbeddingConfig;
  dimension : Z;
  maxTokens : Z;
}.

Definition default_model : string := "gemini-embedding-001".

(** [static getSupportedModels()]. *)
Definition getSupportedModels : gmap string ModelInfo :=
  {[ "gemini-embedding-001" :=
       {| info_dimension := 3072;
          contextLength := 2048;
          description :=
            "Gemini text embedding model served via Vertex AI (recommended)";
          supportedDimensions := Some [3072; 1536; 768; 256] |} ]}.

(** [s || d] for a field that is always a string. *)
Definition or_else (s d : string) : string :=
  if truthy_string s then s else d.

(** [config.outputDimensionality || this.dimension]. *)
Definition or_number (a : option Z) (b : Z) : Z :=
  match a with
  | Some n => if truthy_number n then n else b
  | None => b
  end.

Definition project_required_message : string :=
  "[VertexAIEmbedding] Project ID is required. Set projectId in config or VERTEX_PROJECT / GOOGLE_CLOUD_PROJECT env.".

(** [Array.prototype.map] with a callback that may throw: the first throw
    ends the call and no array is returned. *)
Fixpoint map_throwing {A B : Type} (f : A -> Completion B) (l : list A)
  : Completion (list B) :=
  match l with
  | [] => Normal []
  | a :: l' =>
      match f a with
      | Throw e => Throw e
      | Normal b =>
          match map_throwing f l' with
          | Throw e => Throw e
          | Normal bs => Normal (b :: bs)
          end
      end
  end.

(** The instance methods. The registry read through [getSupportedModels()],
    the environment [process.env], the backend call
    [client.models.embedContent] and the base class's [preprocessTexts]
    (which sees [this.maxTokens]) are the parameters. *)
Section Provider.
Variable supportedModels : gmap string ModelInfo.
Variable env : gmap string string.
Variable embedContent :
  GoogleGenAI -> EmbedContentParameters -> Completion EmbedContentResponse.
Variable preprocessTexts : Z -> list string -> list string.

(** The project id as the constructor resolves it. *)
Definition resolve_projectId (config : VertexAIEmbeddingConfig) : option string :=
  or_string
    (or_string (projectId config) (env !! "VERTEX_PROJECT"))
    (env !! "GOOGLE_CLOUD_PROJECT").

(** The location as the constructor resolves it. *)
Definition resolve_location (config : VertexAIEmbeddingConfig) : string :=
  or_default
    (or_string
       (or_string (location config) (env !! "VERTEX_LOCATION"))
       (env !! "GOOGLE_CLOUD_LOCATION"))
    "global".

(** [updateDimensionForModel(model)]: the new [dimension] and [maxTokens].
    [supportedModels[model]] is read as the lookup of the registry's own
    entry for [model]. The source indexes a plain object, so for a [model]
    with [Object_prototype_member model = true] (["toString"],
    ["constructor"], ["__proto__"], ...) and no entry of its own it finds the
    inherited member, which is truthy and has neither a [dimension] nor a
    [contextLength]: both fields become [undefined] there, where this
    definition takes the defaults. For every other name the two agree. *)
Definition updateDimensionForModel (model : string) : Z * Z :=
  match supportedModels !! model with
  | Some modelInfo => (info_dimension modelInfo, contextLength modelInfo)
  | None => (3072, 2048)
  end.

(** [new VertexAIEmbedding(config)]. *)
Definition constructor (config : VertexAIEmbeddingConfig)
  : Completion VertexAIEmbedding :=
  let projectId := resolve_projectId config in
  let location := resolve_location config in
  match projectId with
  | Some project_id =>
      if negb (truthy_string project_id)
      then Throw (newError project_required_message)
      else
        let client :=
          {| vertexai := true; project := project_id; client_location := location |} in
        let '(dimension, maxTokens) :=
          updateDimensionForModel (or_else (model config) default_model) in
        let dimension :=
          match outputDimensionality config with
          | Some d => if truthy_number d then d else dimension
          | None => dimension
          end in
        Normal {| client := client; config := config;
                  dimension := dimension; maxTokens := maxTokens |}
  | None => Throw (newError project_required_message)
  end.

Definition getDimension (self : VertexAIEmbedding) : Z := dimension self.

Definition detectDimension (self : VertexAIEmbedding) : Z := dimension self.

(** The [catch] clause of [embedBatch]. *)
Definition batch_failure (error : Thrown) : Thrown :=
  newError
    ("Vertex AI batch embedding failed: " +:+
     (if instanceof_Error error
      then default "" (message_of error)
      else "Unknown error")).

(** The callback handed to [response.embeddings.map]. *)
Definition to_vector (embedding : ContentEmbedding) : Completion EmbeddingVector :=
  match values embedding with
  | None =>
      Throw (newError "Vertex AI embedding API returned invalid embedding data")
  | Some vs =>
      Normal {| vector := vs; vec_dimension := Z.of_nat (List.length vs) |}
  end.

(** The request [embedBatch] sends. *)
Definition batch_request (self : VertexAIEmbedding) (texts : list string)
  : EmbedContentParameters :=
  {| req_model := or_else (model (config self)) default_model;
     contents := preprocessTexts (maxTokens self) texts;
     req_outputDimensionality :=
       or_number (outputDimensionality (config self)) (dimension self) |}.

(** The [try] block of [embedBatch]. *)
Definition embedBatch_try (self : VertexAIEmbedding) (texts : list string)
  : Completion (list EmbeddingVector) :=
  match embedContent (client self) (batch_request self texts) with
  | Throw e => Throw e
  | Normal response =>
      match embeddings response with
      | None =>
          Throw (newError "Vertex AI embedding API returned invalid response")
      | Some embs => map_throwing to_vector embs
      end
  end.

(** [embedBatch(texts)]. *)
Definition embedBatch (self : VertexAIEmbedding) (texts : list string)
  : Completion (list EmbeddingVector) :=
  match embedBatch_try self texts with
  | Normal vectors => Normal vectors
  | Throw error => Throw (batch_failure error)
  end.

(** [getSupportedDimensions()]. *)
Definition getSupportedDimensions (self : VertexAIEmbedding) : list Z :=
  match supportedModels !! or_else (model (config self)) default_model with
  | Some modelInfo =>
      match supportedDimensions modelInfo with
      | Some dims => dims
      | None => [dimension self]
      end
  | None => [dimension self]
  end.

(** [isDimensionSupported(dimension)]: [Array.prototype.includes]. *)
Definition isDimensionSupported (self : VertexAIEmbedding) (d : Z) : bool :=
  bool_decide (d ∈ getSupportedDimensions self).
(** The base class's [preprocessText], which sees [this.maxTokens]. *)
Variable preprocessText : Z -> string -> string.

(** The request [embed] sends: [contents] is the one preprocessed text. *)
Definition embed_request (self : VertexAIEmbedding) (text : string)
  : EmbedContentParameters :=
  {| req_model := or_else (model (config self)) default_model;
     contents := [preprocessText (maxTokens self) text];
     req_outputDimensionality :=
       or_number (outputDimensionality (config self)) (dimension self) |}.

(** The [catch] clause of [embed]. *)
Definition embed_failure (error : Thrown) : Thrown :=
  newError
    ("Vertex AI embedding failed: " +:+
     (if instanceof_Error error
      then default "" (message_of error)
      else "Unknown error")).

(** The [try] block of [embed]: only [response.embeddings[0]] is read. *)
Definition embed_try (self : VertexAIEmbedding) (text : string)
  : Completion EmbeddingVector :=
  match embedContent (client self) (embed_request self text) with
  | Throw e => Throw e
  | Normal response =>
      match embeddings response with
      | None =>
          Throw (newError "Vertex AI embedding API returned invalid response")
      | Some [] =>
          Throw (newError "Vertex AI embedding API returned invalid response")
      | Some (first :: _) =>
          match values first with
          | None =>
              Throw (newError "Vertex AI embedding API returned invalid response")
          | Some vs =>
              Normal {| vector := vs; vec_dimension := Z.of_nat (List.length vs) |}
          end
      end
  end.

(** [embed(text)]. *)
Definition embed (self : VertexAIEmbedding) (text : string)
  : Completion EmbeddingVector :=
  match embed_try self text with
  | Normal v => Normal v
  | Throw error => Throw (embed_failure error)
  end.

(** [getProvider()]. *)
Definition getProvider (self : VertexAIEmbedding) : string := "VertexAI".
End Provider.

End VertexAI.

(* ================================================================== *)
(** * The snapshot store ([SnapshotManager], packages/mcp/src/snapshot.ts) *)
(* ================================================================== *)

Module Snapshot.

Inductive Status : Type :=
| not_indexed
| indexing
| indexed
| index_failed.

#[global] Instance Status_eq_dec : EqDecision Status.
Proof. solve_decision. Defined.

(** The statistics [indexCodebase] returns. *)
Record IndexStats : Type := {
  indexedFiles : Z;
  totalChunks : Z;
  stats_status : string;
}.

Record IndexRecord : Type := {
  status : Status;
  progressPercentage : Q;
  lastIndexedStats : option IndexStats;
  lastError : option string;
  updatedAt : Z;
}.

(** Modelled from the spec: the snapshot store's source (snapshot.ts) is
    missing; these are the operations of the specification's section 4.2 on
    the mapping from identity to record. [now] is the time of the
    transition. *)
Definition getStatus (m : gmap string IndexRecord) (identity : string) : Status :=
  match m !! identity with
  | Some r => status r
  | None => not_indexed
  end.

(** Modelled from the spec: [setIndexing] creates or overwrites the record
    with [status = indexing] (snapshot.ts is missing). *)
Definition setIndexing (now : Z) (identity : string) (initialProgress : Q)
    (m : gmap string IndexRecord) : gmap string IndexRecord :=
  <[ identity :=
       {| status := indexing; progressPercentage := initialProgress;
          lastIndexedStats := None; lastError := None; updatedAt := now |} ]> m.

(** Modelled from the spec: the record a transition starts from when the
    identity has none, the implicit [not_indexed] (snapshot.ts is missing). *)
Definition blank (now : Z) : IndexRecord :=
  {| status := not_indexed; progressPercentage := 0%Q;
     lastIndexedStats := None; lastError := None; updatedAt := now |}.

(** Modelled from the spec: [setIndexed] transitions to [indexed], stores the
    stats and clears any prior error (snapshot.ts is missing). *)
Definition setIndexed (now : Z) (identity : string) (stats : IndexStats)
    (m : gmap string IndexRecord) : gmap string IndexRecord :=
  let r := default (blank now) (m !! identity) in
  <[ identity :=
       {| status := indexed; progressPercentage := progressPercentage r;
          lastIndexedStats := Some stats; lastError := None;
          updatedAt := now |} ]> m.

(** Modelled from the spec: [setIndexFailed] transitions to [index_failed]
    with the message, retains the last known progress, and leaves the stats
    of a prior success in place (snapshot.ts is missing). *)
Definition setIndexFailed (now : Z) (identity : string) (message : string)
    (lastProgress : Q) (m : gmap string IndexRecord) : gmap string IndexRecord :=
  let r := default (blank now) (m !! identity) in
  <[ identity :=
       {| status := index_failed; progressPercentage := lastProgress;
          lastIndexedStats := lastIndexedStats r; lastError := Some message;
          updatedAt := now |} ]> m.

(** Modelled from the spec: [clear] removes the record (snapshot.ts is
    missing). *)
Definition clear (identity : string) (m : gmap string IndexRecord)
  : gmap string IndexRecord :=
  delete identity m.

(** Modelled from the spec: the persisted state is absent (or unreadable) or
    holds a full mapping; [load] never fails and starts empty in the first
    case (snapshot.ts is missing). *)
Definition load (persisted : option (gmap string IndexRecord))
  : gmap string IndexRecord :=
  default ∅ persisted.

(** Modelled from the spec: [save] persists the full in-memory mapping
    (snapshot.ts is missing). *)
Definition save (m : gmap string IndexRecord) : option (gmap string IndexRecord) :=
  Some m.

End Snapshot.

(* ================================================================== *)
(** * The command line: [runIndex] *)
(* ================================================================== *)

Module Cli.
Import Js Snapshot.

(** A progress event of the pipeline. *)
Record Progress : Type := {
  percentage : Q;
  phase : string;
}.

(** What one call of [context.indexCodebase] does: the progress events it
    hands to the callback, in order, how long it takes, and how it ends. *)
Record PipelineRun : Type := {
  progress_events : list Progress;
  elapsed : Z;
  result : Completion IndexStats;
}.

(** The collaborators [runIndex] calls: the file system, the indexing
    pipeline ([Context]) and the vector database. [indexCodebase] sees the
    custom extensions and ignore patterns added to the context. *)
Record Collaborators : Type := {
  existsSync : string -> bool;
  isDirectory : string -> bool;
  hasIndex : string -> Completion bool;
  checkCollectionLimit : Completion bool;
  indexCodebase : list string -> list string -> string -> bool -> PipelineRun;
  COLLECTION_LIMIT_MESSAGE : string;
}.

(** The options object of the [index] command. *)
Record Options : Type := {
  opt_force : bool;
  opt_ext : option (list string);
  opt_ignore : option (list string);
}.

(** What the run does to the outside, in order. Standard output is left
    out. *)
Inductive Effect : Type :=
| LoadSnapshot
| ExistsSync (path : string)
| StatSync (path : string)
| GetCodebaseStatus (path : string)
| HasIndex (path : string)
| CheckCollectionLimit
| SetCodebaseIndexing (path : string) (progress : Q)
| SaveSnapshot
| IndexCodebase (path : string) (force : bool)
| OnProgress (p : Progress)
| SetCodebaseIndexed (path : string) (stats : IndexStats)
| SetCodebaseIndexFailed (path : string) (message : string) (progress : Q)
| ConsoleError (message : string)
| ProcessExit (code : Z).

(** The process and its surroundings. *)
Record World : Type := {
  persisted : option (gmap string IndexRecord);  (* the snapshot file *)
  snapshot : gmap string IndexRecord;            (* the manager's mapping *)
  clock : Z;
  customExtensions : list string;
  customIgnorePatterns : list string;
  lastProgress : Q;                              (* the local of [runIndex] *)
  trace : list Effect;                           (* latest effect first *)
}.

(** How a computation ends: with a value, with a throw (a rejected promise),
    or with the process gone. *)
Inductive Outcome (A : Type) : Type :=
| Value (a : A)
| Thrown (e : Js.Thrown)
| Exited (code : Z).
Arguments Value {A} a.
Arguments Thrown {A} e.
Arguments Exited {A} code.

Definition M (A : Type) : Type := World -> Outcome A * World.

Definition ret {A} (a : A) : M A := fun w => (Value a, w).

Definition bind {A B} (m : M A) (k : A -> M B) : M B :=
  fun w =>
    match m w with
    | (Value a, w') => k a w'
    | (Thrown e, w') => (Thrown e, w')
    | (Exited c, w') => (Exited c, w')
    end.

Notation "'let*' x := m 'in' k" := (bind m (fun x => k))
  (at level 10, x name, m at level 100, k at level 200).
Notation "m ;;; k" := (bind m (fun _ => k))
  (at level 100, k at level 200, right associativity).

Definition when (b : bool) (m : M unit) : M unit :=
  if b then m else ret tt.

(** [try { m } catch (error) { handler error }]: a throw is caught, the end
    of the process is not. *)
Definition try_catch {A} (m : M A) (handler : Js.Thrown -> M A) : M A :=
  fun w =>
    match m w with
    | (Thrown e, w') => handler e w'
    | r => r
    end.

Definition modify (f : World -> World) : M unit := fun w => (Value tt, f w).

Definition emit (e : Effect) : M unit :=
  modify (fun w =>
    {| persisted := persisted w; snapshot := snapshot w; clock := clock w;
       customExtensions := customExtensions w;
       customIgnorePatterns := customIgnorePatterns w;
       lastProgress := lastProgress w; trace := e :: trace w |}).

Definition set_snapshot (f : Z -> gmap string IndexRecord -> gmap string IndexRecord)
  : M unit :=
  modify (fun w =>
    {| persisted := persisted w; snapshot := f (clock w) (snapshot w);
       clock := clock w;
       customExtensions := customExtensions w;
       customIgnorePatterns := customIgnorePatterns w;
       lastProgress := lastProgress w; trace := trace w |}).

Definition set_lastProgress (p : Q) : M unit :=
  modify (fun w =>
    {| persisted := persisted w; snapshot := snapshot w; clock := clock w;
       customExtensions := customExtensions w;
       customIgnorePatterns := customIgnorePatterns w;
       lastProgress := p; trace := trace w |}).

Definition get_lastProgress : M Q := fun w => (Value (lastProgress w), w).

(** [await] of a collaborator's promise. *)
Definition await {A} (c : Completion A) : M A :=
  fun w =>
    match c with
    | Normal a => (Value a, w)
    | Throw e => (Thrown e, w)
    end.

Definition console_error (message : string) : M unit :=
  emit (ConsoleError message).

Definition process_exit {A} (code : Z) : M A :=
  fun w =>
    match emit (ProcessExit code) w with
    | (_, w') => (Exited code, w')
    end.

(** ** The snapshot manager's methods on the process state *)

Definition loadCodebaseSnapshot : M unit :=
  emit LoadSnapshot ;;;
  modify (fun w =>
    {| persisted := persisted w; snapshot := Snapshot.load (persisted w);
       clock := clock w;
       customExtensions := customExtensions w;
       customIgnorePatterns := customIgnorePatterns w;
       lastProgress := lastProgress w; trace := trace w |}).

Definition saveCodebaseSnapshot : M unit :=
  emit SaveSnapshot ;;;
  modify (fun w =>
    {| persisted := Snapshot.save (snapshot w); snapshot := snapshot w;
       clock := clock w;
       customExtensions := customExtensions w;
       customIgnorePatterns := customIgnorePatterns w;
       lastProgress := lastProgress w; trace := trace w |}).

Definition getCodebaseStatus (path : string) : M Status :=
  emit (GetCodebaseStatus path) ;;;
  fun w => (Value (Snapshot.getStatus (snapshot w) path), w).

Definition setCodebaseIndexing (path : string) (progress : Q) : M unit :=
  emit (SetCodebaseIndexing path progress) ;;;
  set_snapshot (fun now => Snapshot.setIndexing now path progress).

Definition setCodebaseIndexed (path : string) (stats : IndexStats) : M unit :=
  emit (SetCodebaseIndexed path stats) ;;;
  set_snapshot (fun now => Snapshot.setIndexed now path stats).

Definition setCodebaseIndexFailed (path message : string) (progress : Q) : M unit :=
  emit (SetCodebaseIndexFailed path message progress) ;;;
  set_snapshot (fun now => Snapshot.setIndexFailed now path message progress).

(** [for] each element in order. *)
Fixpoint for_each {A} (f : A -> M unit) (l : list A) : M unit :=
  match l with
  | [] => ret tt
  | a :: l' => f a ;;; for_each f l'
  end.

Section RunIndex.
Variable resolve : string -> string.
Variable win32 : bool.
Variable env : Collaborators.

(** [createEngine()]: of the engine only the snapshot manager, loaded from
    the snapshot file, bears on the run; the configuration, the embedding
    provider and the database client are taken as constructed. In the source
    their construction can throw (the Vertex AI provider's constructor does
    without a project id) and [runIndex] awaits [createEngine()] outside its
    [try]: such a run rejects before its first check. The runs of this
    development start where the engine exists. *)
Definition createEngine : M unit := loadCodebaseSnapshot.

Definition fs_existsSync (path : string) : M bool :=
  emit (ExistsSync path) ;;; ret (existsSync env path).

Definition fs_statSync_isDirectory (path : string) : M bool :=
  emit (StatSync path) ;;; ret (isDirectory env path).

Definition context_hasIndex (path : string) : M bool :=
  emit (HasIndex path) ;;; await (hasIndex env path).

Definition vectorDatabase_checkCollectionLimit : M bool :=
  emit CheckCollectionLimit ;;; await (checkCollectionLimit env).

Definition context_addCustomExtensions (exts : list string) : M unit :=
  modify (fun w =>
    {| persisted := persisted w; snapshot := snapshot w; clock := clock w;
       customExtensions := customExtensions w ++ exts;
       customIgnorePatterns := customIgnorePatterns w;
       lastProgress := lastProgress w; trace := trace w |}).

Definition context_addCustomIgnorePatterns (patterns : list string) : M unit :=
  modify (fun w =>
    {| persisted := persisted w; snapshot := snapshot w; clock := clock w;
       customExtensions := customExtensions w;
       customIgnorePatterns := customIgnorePatterns w ++ patterns;
       lastProgress := lastProgress w; trace := trace w |}).

(** [context.indexCodebase(path, onProgress, force)]: the callback is run
    on every progress event, then the call returns the stats or throws. *)
Definition context_indexCodebase (path : string)
    (onProgress : Progress -> M unit) (force : bool) : M IndexStats :=
  emit (IndexCodebase path force) ;;;
  fun w =>
    let run :=
      indexCodebase env (customExtensions w) (customIgnorePatterns w) path force in
    (for_each (fun p => emit (OnProgress p) ;;; onProgress p)
              (progress_events run) ;;;
     modify (fun w =>
       {| persisted := persisted w; snapshot := snapshot w;
          clock := clock w + elapsed run;
          customExtensions := customExtensions w;
          customIgnorePatterns := customIgnorePatterns w;
          lastProgress := lastProgress w; trace := trace w |}) ;;;
     await (result run)) w.

Definition path_missing_message (absolutePath : string) : string :=
  "Error: Path '" +:+ absolutePath +:+ "' does not exist.".

Definition not_a_directory_message (absolutePath : string) : string :=
  "Error: Path '" +:+ absolutePath +:+ "' is not a directory.".

Definition already_indexing_message (absolutePath : string) : string :=
  "Codebase '" +:+ absolutePath +:+ "' is already being indexed.".

Definition already_indexed_message (absolutePath : string) : string :=
  "Codebase '" +:+ absolutePath +:+ "' is already indexed. Use --force to re-index.".

(** [error?.message || String(error)]. *)
Definition failure_message (error : Js.Thrown) : string :=
  match message_of error with
  | Some m => if truthy_string m then m else String_of error
  | None => String_of error
  end.

(** [runIndex(pathArg, options)]. *)
Definition runIndex (pathArg : string) (options : Options) : M unit :=
  createEngine ;;;
  let absolutePath := Utils.ensureAbsolutePath resolve win32 pathArg in

  let* exists_ := fs_existsSync absolutePath in
  when (negb exists_)
    (console_error (path_missing_message absolutePath) ;;; process_exit 1) ;;;

  let* is_dir := fs_statSync_isDirectory absolutePath in
  when (negb is_dir)
    (console_error (not_a_directory_message absolutePath) ;;; process_exit 1) ;;;

  let force := opt_force options in

  let* currentStatus := getCodebaseStatus absolutePath in
  when (bool_decide (currentStatus = indexing))
    (console_error (already_indexing_message absolutePath) ;;; process_exit 1) ;;;

  let* has_index := context_hasIndex absolutePath in
  when (has_index && negb force)
    (console_error (already_indexed_message absolutePath) ;;; process_exit 1) ;;;

  let* canCreate := vectorDatabase_checkCollectionLimit in
  when (negb canCreate)
    (console_error (COLLECTION_LIMIT_MESSAGE env) ;;; process_exit 1) ;;;

  let customExt := default [] (opt_ext options) in
  let ignorePatterns := default [] (opt_ignore options) in
  when (0 <? Z.of_nat (List.length customExt))
    (context_addCustomExtensions customExt) ;;;
  when (0 <? Z.of_nat (List.length ignorePatterns))
    (context_addCustomIgnorePatterns ignorePatterns) ;;;

  setCodebaseIndexing absolutePath 0%Q ;;;
  saveCodebaseSnapshot ;;;

  set_lastProgress 0%Q ;;;

  try_catch
    (let* stats :=
       context_indexCodebase absolutePath
         (fun progress => set_lastProgress (percentage progress))
         force in
     setCodebaseIndexed absolutePath stats ;;;
     saveCodebaseSnapshot)
    (fun error =>
       let message := failure_message error in
       let* lastProgress := get_lastProgress in
       setCodebaseIndexFailed absolutePath message lastProgress ;;;
       saveCodebaseSnapshot ;;;
       console_error ("[INDEX] Failed: " +:+ message) ;;;
       process_exit 1).

(** Modelled from the spec: the status operation (handlers.ts is missing)
    in a later process loads the snapshot file and reads the record of the
    identity; no record is the implicit [not_indexed]. *)
Definition status_query (w : World) (identity : string) : option IndexRecord :=
  Snapshot.load (persisted w) !! identity.

End RunIndex.

(** ** [printMcpResponse] *)

(** An element of [result.content]: [item_type] is [c.type] when it is a
    string, [item_text] is [c.text] when [typeof c.text === 'string']. *)
Record ContentItem : Type := {
  item_type : option string;
  item_text : option string;
}.

(** A tool's result: [content] is [None] when [result.content] is no array,
    an element is [None] when it is [null] or [undefined]; [isError] is the
    truthiness of [result.isError]. *)
Record ToolResult : Type := {
  content : option (list (option ContentItem));
  isError : bool;
}.

(** What [printMcpResponse] writes to: the two streams, each as the texts of
    the console calls made on it, oldest first (one element per call; a text
    can hold line feeds), and [process.exitCode]. *)
Record Terminal : Type := {
  stdout : list string;
  stderr : list string;
  exitCode : option Z;
}.

(** [c?.type === 'text' && typeof c.text === 'string']. *)
Definition is_text_item (c : option ContentItem) : bool :=
  match c with
  | Some item =>
      match item_type item, item_text item with
      | Some t, Some _ => bool_decide (t = "text")
      | _, _ => false
      end
  | None => false
  end.

(** [c.text] of an element that passed the filter. *)
Definition text_of (c : option ContentItem) : string :=
  match c with
  | Some item => default "" (item_text item)
  | None => ""
  end.

(** The separator of [pieces.join]: two line feeds. *)
Definition blank_line : string := String "010" (String "010" EmptyString).

(** [pieces]: the texts of the text elements; none when [result] is [null] or
    its [content] is no array. *)
Definition pieces_of (result : option ToolResult) : list string :=
  match result with
  | Some r =>
      match content r with
      | Some items => text_of <$> filter (fun c => is_text_item c = true) items
      | None => []
      end
  | None => []
  end.

(** [pieces.join('\n\n') || 'No output.']. *)
Definition response_text (result : option ToolResult) : string :=
  let joined := String.concat blank_line (pieces_of result) in
  if truthy_string joined then joined else "No output.".

(** [printMcpResponse(result)]. *)
Definition printMcpResponse (result : option ToolResult) (t : Terminal) : Terminal :=
  let text := response_text result in
  if match result with Some r => isError r | None => false end
  then
    {| stdout := stdout t; stderr := stderr t ++ [text]; exitCode := Some 1 |}
  else
    {| stdout := stdout t ++ [text]; stderr := stderr t; exitCode := exitCode t |}.

End Cli.

(* ================================================================== *)
(** * The vocabulary of the properties *)
(* ================================================================== *)

(** ** [truncateContent] *)

Section TruncateContentVocabulary.
Import Utils.

(** The claim C9 as it is worded: what [truncateContent] is said to
    return. *)
Definition truncateContent_as_claimed (content : string) (maxLength : Z) : Prop :=
  (Js.length content <= maxLength ->
     truncateContent content maxLength = content) /\
  (maxLength < Js.length content ->
     exists first rest,
       content = first +:+ rest /\
       Js.length first = maxLength /\
       truncateContent content maxLength = first +:+ "..." /\
       Js.length (truncateContent content maxLength) = maxLength + 3 /\
       maxLength < Js.length (truncateContent content maxLength)).

(** What the code does for every integer [maxLength]: a negative
    [maxLength] counts as [0] in [substring]. *)
Definition truncateContent_clamped (content : string) (maxLength : Z) : Prop :=
  (Js.length content <= maxLength ->
     truncateContent content maxLength = content) /\
  (maxLength < Js.length content ->
     exists first rest,
       content = first +:+ rest /\
       Js.length first = Z.max 0 maxLength /\
       truncateContent content maxLength = first +:+ "..." /\
       Js.length (truncateContent content maxLength) = Z.max 0 maxLength + 3 /\
       maxLength < Js.length (truncateContent content maxLength)).

End TruncateContentVocabulary.

(** ** The construction of the provider *)

Section ConstructionVocabulary.
Import Js VertexAI.

(** The value a configuration tier provides: a non-empty string. *)
Definition provided (a : option string) : option string :=
  match a with
  | Some s => if truthy_string s then Some s else None
  | None => None
  end.

(** The first tier, in order, that provides a value. *)
Fixpoint first_provided (tiers : list (option string)) : option string :=
  match tiers with
  | [] => None
  | a :: rest =>
      match provided a with
      | Some s => Some s
      | None => first_provided rest
      end
  end.

Definition project_tiers (env : gmap string string)
    (config : VertexAIEmbeddingConfig) : list (option string) :=
  [projectId config; env !! "VERTEX_PROJECT"; env !! "GOOGLE_CLOUD_PROJECT"].

Definition location_tiers (env : gmap string string)
    (config : VertexAIEmbeddingConfig) : list (option string) :=
  [location config; env !! "VERTEX_LOCATION"; env !! "GOOGLE_CLOUD_LOCATION";
   Some "global"].

End ConstructionVocabulary.

(** The claim C4 as the specification words it. *)
Definition override_wins_as_claimed
    (registry : gmap string VertexAI.ModelInfo) (env : gmap string string)
    (config : VertexAI.VertexAIEmbeddingConfig) : Prop :=
  forall override self,
    VertexAI.outputDimensionality config = Some override ->
    VertexAI.constructor registry env config = Js.Normal self ->
    VertexAI.getDimension self = override.

(** The claim C7 as the specification words it, for a provider built from
    [config] without an override. *)
Definition unlisted_model_as_claimed
    (registry : gmap string VertexAI.ModelInfo) (env : gmap string string)
    (config : VertexAI.VertexAIEmbeddingConfig) : Prop :=
  forall self,
    registry !! VertexAI.model config = None ->
    VertexAI.outputDimensionality config = None ->
    VertexAI.constructor registry env config = Js.Normal self ->
    VertexAI.getDimension self = 3072 /\
    VertexAI.maxTokens self = 2048 /\
    VertexAI.getSupportedDimensions registry self = [3072] /\
    (forall d, VertexAI.isDimensionSupported registry self d = true <-> d = 3072).

(** ** [embedBatch] *)

Section EmbedBatchVocabulary.
Import Js VertexAI.

(** An embedding of the response carries vector data. *)
Definition has_values (e : ContentEmbedding) : bool :=
  match values e with Some _ => true | None => false end.

(** The vector made of one returned embedding. *)
Definition carries (e : ContentEmbedding) (v : EmbeddingVector) : Prop :=
  values e = Some (vector v) /\
  vec_dimension v = Z.of_nat (List.length (vector v)).

(** What the [catch] clause reports of the error it caught. *)
Definition reported_cause (e : Thrown) : string :=
  match e with
  | ErrorObject _ message => message
  | ThrownString _ => "Unknown error"
  end.

Definition batch_error (cause : string) : Thrown :=
  newError ("Vertex AI batch embedding failed: " +:+ cause).

(** The claim C5 as the specification words it, for one call: the call
    returns one vector per input, or it fails as a whole with an error that
    reports a cause. *)
Definition embedBatch_as_claimed
    (embedContent :
       GoogleGenAI -> EmbedContentParameters -> Completion EmbedContentResponse)
    (preprocessTexts : Z -> list string -> list string)
    (self : VertexAIEmbedding) (texts : list string) : Prop :=
  match embedBatch embedContent preprocessTexts self texts with
  | Normal vectors => List.length vectors = List.length texts
  | Throw e => exists cause, e = batch_error cause
  end.

End EmbedBatchVocabulary.

(** ** The run of [runIndex] *)

Section LifecycleVocabulary.
Import Js Snapshot Cli.

Variable env : Collaborators.

(** The pre-flight failures of the specification's taxonomy. *)
Inductive Failure : Type :=
| PathError
| ConcurrencyError
| AlreadyIndexedError
| CapacityError.

(** How the pre-flight ends: one of the four failures, a collaborator's
    promise that rejects, or all four checks passed. *)
Inductive Preflight : Type :=
| Fails (f : Failure)
| Rejects (e : Js.Thrown)
| Passes.

(** The four checks in the order of the specification's steps 1 to 4, on the
    mapping the snapshot manager loaded. *)
Definition preflight (identity : string) (force : bool)
    (m : gmap string IndexRecord) : Preflight :=
  if negb (existsSync env identity && isDirectory env identity)
  then Fails PathError
  else if bool_decide (getStatus m identity = indexing)
  then Fails ConcurrencyError
  else
    match hasIndex env identity with
    | Throw e => Rejects e
    | Normal has_index =>
        if has_index && negb force
        then Fails AlreadyIndexedError
        else
          match checkCollectionLimit env with
          | Throw e => Rejects e
          | Normal canCreate =>
              if canCreate then Passes else Fails CapacityError
          end
    end.

(** What the run writes to standard error for each failure. *)
Definition failure_report (identity : string) (f : Failure) : string :=
  match f with
  | PathError =>
      if existsSync env identity
      then not_a_directory_message identity
      else path_missing_message identity
  | ConcurrencyError => already_indexing_message identity
  | AlreadyIndexedError => already_indexed_message identity
  | CapacityError => COLLECTION_LIMIT_MESSAGE env
  end.

(** The checks made up to each failure, latest first. *)
Definition checks_made (identity : string) (f : Failure) : list Effect :=
  match f with
  | PathError =>
      if existsSync env identity
      then [StatSync identity; ExistsSync identity]
      else [ExistsSync identity]
  | ConcurrencyError =>
      [GetCodebaseStatus identity; StatSync identity; ExistsSync identity]
  | AlreadyIndexedError =>
      [HasIndex identity; GetCodebaseStatus identity; StatSync identity;
       ExistsSync identity]
  | CapacityError =>
      [CheckCollectionLimit; HasIndex identity; GetCodebaseStatus identity;
       StatSync identity; ExistsSync identity]
  end.

(** The checks made before a collaborator's promise rejects. *)
Definition checks_until_rejection (identity : string) : list Effect :=
  match hasIndex env identity with
  | Throw _ =>
      [HasIndex identity; GetCodebaseStatus identity; StatSync identity;
       ExistsSync identity]
  | Normal _ =>
      [CheckCollectionLimit; HasIndex identity; GetCodebaseStatus identity;
       StatSync identity; ExistsSync identity]
  end.

(** The effects of a run whose four checks passed, up to the persisted
    transition to [indexing], latest first. *)
Definition started_trace (identity : string) (w : World) : list Effect :=
  [SaveSnapshot; SetCodebaseIndexing identity 0%Q; CheckCollectionLimit;
   HasIndex identity; GetCodebaseStatus identity; StatSync identity;
   ExistsSync identity; LoadSnapshot] ++ trace w.

(** The effects that change the snapshot or persist it. *)
Definition is_transition (e : Effect) : bool :=
  match e with
  | SetCodebaseIndexing _ _ | SaveSnapshot
  | SetCodebaseIndexed _ _ | SetCodebaseIndexFailed _ _ _ => true
  | _ => false
  end.

(** The last percentage the callback saw; [0] when it saw none. *)
Definition last_percentage (events : list Progress) : Q :=
  default 0%Q (last (percentage <$> events)).

(** The call of the pipeline as the run makes it: the context holds the
    extensions and patterns of the options. *)
Definition pipeline_run (identity : string) (options : Options) (w : World)
  : PipelineRun :=
  indexCodebase env
    (customExtensions w ++ default [] (opt_ext options))
    (customIgnorePatterns w ++ default [] (opt_ignore options))
    identity (opt_force options).

(** The world in which the pipeline of a started run ends. *)
Definition finished_world (identity : string) (options : Options) (w : World)
    (m : gmap string IndexRecord) (last_effects : list Effect) : World :=
  let run := pipeline_run identity options w in
  {| persisted := Some m;
     snapshot := m;
     clock := clock w + elapsed run;
     customExtensions := customExtensions w ++ default [] (opt_ext options);
     customIgnorePatterns :=
       customIgnorePatterns w ++ default [] (opt_ignore options);
     lastProgress := last_percentage (progress_events run);
     trace :=
       last_effects ++ rev (OnProgress <$> progress_events run)
       ++ IndexCodebase identity (opt_force options)
       :: started_trace identity w |}.

End LifecycleVocabulary.

(** ** A repository at [/repo] *)

(** Collaborators that know the directory [/repo], have no index of it and
    room for one, and whose pipeline behaves as [pipeline]. *)
Definition repo_collaborators (present : bool) (pipeline : Cli.PipelineRun)
  : Cli.Collaborators :=
  {| Cli.existsSync := fun path => present && bool_decide (path = "/repo");
     Cli.isDirectory := fun path => present && bool_decide (path = "/repo");
     Cli.hasIndex := fun _ => Js.Normal false;
     Cli.checkCollectionLimit := Js.Normal true;
     Cli.indexCodebase := fun _ _ _ _ => pipeline;
     Cli.COLLECTION_LIMIT_MESSAGE := "collection limit reached" |}.

(** A process that starts at time [1000] over the snapshot file [file]. *)
Definition fresh_process (file : option (gmap string Snapshot.IndexRecord))
  : Cli.World :=
  {| Cli.persisted := file; Cli.snapshot := ∅; Cli.clock := 1000;
     Cli.customExtensions := []; Cli.customIgnorePatterns := [];
     Cli.lastProgress := 0%Q; Cli.trace := [] |}.

Definition plain_options : Cli.Options :=
  {| Cli.opt_force := false; Cli.opt_ext := None; Cli.opt_ignore := None |}.

(** A pipeline that reports progress 0, then 37, and fails. *)
Definition timeout_at_37 : Cli.PipelineRun :=
  {| Cli.progress_events :=
       [ {| Cli.percentage := 0%Q; Cli.phase := "Preparing" |};
         {| Cli.percentage := 37%Q; Cli.phase := "Indexing files" |} ];
     Cli.elapsed := 5;
     Cli.result := Js.Throw (Js.newError "backend timeout") |}.

(** A pipeline that reports progress 0, 50 and 100 and succeeds. *)
Definition success_with_42_files : Cli.PipelineRun :=
  {| Cli.progress_events :=
       [ {| Cli.percentage := 0%Q; Cli.phase := "Preparing" |};
         {| Cli.percentage := 50%Q; Cli.phase := "Indexing files" |};
         {| Cli.percentage := 100%Q; Cli.phase := "Done" |} ];
     Cli.elapsed := 60;
     Cli.result :=
       Js.Normal {| Snapshot.indexedFiles := 42; Snapshot.totalChunks := 210;
                    Snapshot.stats_status := "completed" |} |}.

(** A snapshot file in which [/repo] is being indexed. *)
Definition repo_being_indexed : option (gmap string Snapshot.IndexRecord) :=
  Some {[ "/repo" :=
            {| Snapshot.status := Snapshot.indexing;
               Snapshot.progressPercentage := 12%Q;
               Snapshot.lastIndexedStats := None;
               Snapshot.lastError := None;
               Snapshot.updatedAt := 900 |} ]}.

(** The claim C2 as the specification words it: with the record at
    [indexing], the run fails with the report of the ConcurrencyError and
    leaves the record as it was. *)
Definition reentry_as_claimed
    (resolve : string -> string) (win32 : bool) (env : Cli.Collaborators)
    (pathArg : string) (options : Cli.Options) (w : Cli.World) : Prop :=
  let identity := Utils.ensureAbsolutePath resolve win32 pathArg in
  Snapshot.getStatus (Snapshot.load (Cli.persisted w)) identity = Snapshot.indexing ->
  exists w' earlier,
    Cli.runIndex resolve win32 env pathArg options w = (Cli.Exited 1, w') /\
    Cli.trace w' =
      Cli.ProcessExit 1
      :: Cli.ConsoleError (Cli.already_indexing_message identity) :: earlier /\
    Cli.status_query w' identity = Cli.status_query w identity.

(** ** Paths and their segments *)

Section PathVocabulary.
Import Utils.

Fixpoint has_backslash (s : string) : bool :=
  match s with
  | EmptyString => false
  | String c s' => bool_decide (c = backslash) || has_backslash s'
  end.

End PathVocabulary.

Section SegmentVocabulary.
Import Utils Utils.Posix.

Fixpoint has_slash (s : string) : bool :=
  match s with
  | EmptyString => false
  | String c s' => bool_decide (c = slash) || has_slash s'
  end.

(** A segment that [normalizeString] keeps as it is. *)
Definition normal_segment (seg : string) : Prop :=
  seg <> "" /\ seg <> "." /\ seg <> ".." /\ has_slash seg = false.

End SegmentVocabulary.

(** ** A backend that answers every content *)

(** A backend that embeds ["a"] as [(1, 0)] and every other content as
    [(0, 1)]. *)
Definition unit_embedding (content : string) : VertexAI.ContentEmbedding :=
  {| VertexAI.values :=
       Some (if decide (content = "a") then [1%Q; 0%Q] else [0%Q; 1%Q]) |}.

Definition unit_backend (client : VertexAI.GoogleGenAI)
    (request : VertexAI.EmbedContentParameters)
  : Js.Completion VertexAI.EmbedContentResponse :=
  Js.Normal
    {| VertexAI.embeddings := Some (unit_embedding <$> VertexAI.contents request) |}.

(** A backend that answers the first content only, whatever the number of
    contents of the request. *)
Definition short_backend (client : VertexAI.GoogleGenAI)
    (request : VertexAI.EmbedContentParameters)
  : Js.Completion VertexAI.EmbedContentResponse :=
  Js.Normal
    {| VertexAI.embeddings :=
         Some (unit_embedding <$> take 1 (VertexAI.contents request)) |}.

Definition gemini_provider : VertexAI.VertexAIEmbedding :=
  {| VertexAI.client :=
       {| VertexAI.vertexai := true; VertexAI.project := "my-project";
          VertexAI.client_location := "global" |};
     VertexAI.config :=
       {| VertexAI.model := "gemini-embedding-001";
          VertexAI.projectId := Some "my-project";
          VertexAI.location := None;
          VertexAI.outputDimensionality := None |};
     VertexAI.dimension := 3072; VertexAI.maxTokens := 2048 |}.

(** ** Further vocabulary: paths, responses and runs *)

(** The string holds an upper-case ASCII letter. *)
Fixpoint has_upper (s : string) : bool :=
  match s with
  | EmptyString => false
  | String c s' =>
      ((65 <=? N_of_ascii c)%N && (N_of_ascii c <=? 90)%N) || has_upper s'
  end.

(** The error [embed] throws for a cause. *)
Definition embed_error (cause : string) : Js.Thrown :=
  Js.newError ("Vertex AI embedding failed: " +:+ cause).

(** The collaborators [env] with another answer to [hasIndex]. *)
Definition with_hasIndex (env : Cli.Collaborators)
    (answer : string -> Js.Completion bool) : Cli.Collaborators :=
  {| Cli.existsSync := Cli.existsSync env;
     Cli.isDirectory := Cli.isDirectory env;
     Cli.hasIndex := answer;
     Cli.checkCollectionLimit := Cli.checkCollectionLimit env;
     Cli.indexCodebase := Cli.indexCodebase env;
     Cli.COLLECTION_LIMIT_MESSAGE := Cli.COLLECTION_LIMIT_MESSAGE env |}.

(** The path an effect is about, if it is about one. *)
Definition effect_path (e : Cli.Effect) : option string :=
  match e with
  | Cli.ExistsSync p | Cli.StatSync p | Cli.GetCodebaseStatus p | Cli.HasIndex p
  | Cli.SetCodebaseIndexing p _ | Cli.IndexCodebase p _
  | Cli.SetCodebaseIndexed p _ | Cli.SetCodebaseIndexFailed p _ _ => Some p
  | _ => None
  end.

(** The effect sets the record of a codebase. *)
Definition is_set (e : Cli.Effect) : bool :=
  match e with
  | Cli.SetCodebaseIndexing _ _ | Cli.SetCodebaseIndexed _ _
  | Cli.SetCodebaseIndexFailed _ _ _ => true
  | _ => false
  end.

(** On a trace, latest effect first: every save comes right after a set of a
    record, and every set of a record is followed at once by a save. *)
Fixpoint saved_at_once (trace : list Cli.Effect) : bool :=
  match trace with
  | [] => true
  | Cli.SaveSnapshot :: earlier =>
      match earlier with
      | e :: before => is_set e && saved_at_once before
      | [] => false
      end
  | e :: earlier => negb (is_set e) && saved_at_once earlier
  end.

(** The number of calls of the pipeline on a trace. *)
Definition pipeline_calls (trace : list Cli.Effect) : nat :=
  List.length
    (List.filter
       (fun e => match e with Cli.IndexCodebase _ _ => true | _ => false end)
       trace).

(* ================================================================== *)
(** * Properties *)
(* ================================================================== *)

(** ** [truncateContent] *)

Section TruncateContent.

Import Utils.

Lemma length_app (a b : string) :
  Js.length (a +:+ b) = Js.length a + Js.length b.
Proof.
  unfold Js.length. induction a as [|c a IH].
  - change ("" +:+ b) with b. simpl. lia.
  - change (String c a +:+ b) with (String c (a +:+ b)). simpl. lia.
Qed.

(** [substring(0, n)] of a string with at least [n] characters is its prefix
    of length [n]. *)
Lemma substring_prefix (n : nat) (s : string) :
  (n <= String.length s)%nat ->
  exists rest,
    s = String.substring 0 n s +:+ rest /\
    String.length (String.substring 0 n s) = n.
Proof.
  revert s. induction n as [|n IH]; intros s Hn.
  - exists s. destruct s; simpl; auto.
  - destruct s as [|c s]; [inversion Hn|].
    apply Nat.succ_le_mono in Hn.
    destruct (IH s Hn) as (rest & Heq & Hlen). simpl.
    exists rest. split.
    + change (String c s = String c (String.substring 0 n s +:+ rest)).
      now rewrite <- Heq.
    + now rewrite Hlen.
Qed.

End TruncateContent.

Example truncateContent_short : Utils.truncateContent "abc" 5 = "abc".
Proof. reflexivity. Qed.

Example truncateContent_long : Utils.truncateContent "abcdef" 2 = "ab...".
Proof. reflexivity. Qed.

Example truncateContent_negative : Utils.truncateContent "abc" (-1) = "...".
Proof. reflexivity. Qed.

(** C9, as stated, fails at a negative [maxLength]:
    [truncateContent("abc", -1)] is ["..."], of length 3 and not [-1 + 3]. *)
Lemma truncateContent_claim_fails_negative :
  ~ truncateContent_as_claimed "abc" (-1).
Proof.
  intros [_ H]. destruct H as (first & rest & _ & _ & _ & Hlen & _).
  - vm_compute. reflexivity.
  - vm_compute in Hlen. discriminate Hlen.
Qed.

(** C9 (amended): for every string [content] and every integer [maxLength],
    if the length of [content] is at most [maxLength] then
    [truncateContent] returns [content] unchanged; otherwise it returns the
    first [max(0, maxLength)] characters of [content] followed by ["..."], so
    the result has length [max(0, maxLength) + 3] and exceeds [maxLength]. *)
Theorem truncateContent_correct (content : string) (maxLength : Z) :
  truncateContent_clamped content maxLength.
Proof.
  unfold truncateContent_clamped, Utils.truncateContent. split.
  - intros Hle. apply Z.leb_le in Hle. now rewrite Hle.
  - intros Hlt.
    destruct (Js.length content <=? maxLength) eqn:E;
      [apply Z.leb_le in E; lia|].
    unfold Utils.substring_to.
    destruct (substring_prefix (Z.to_nat maxLength) content) as (rest & Heq & Hlen).
    { unfold Js.length in Hlt. lia. }
    exists (String.substring 0 (Z.to_nat maxLength) content), rest.
    assert (Hfirst :
      Js.length (String.substring 0 (Z.to_nat maxLength) content) = Z.max 0 maxLength).
    { unfold Js.length. rewrite Hlen. lia. }
    repeat split; auto.
    + rewrite length_app, Hfirst. reflexivity.
    + rewrite length_app, Hfirst. change (Js.length "...") with 3. lia.
Qed.

(** ** The Vertex AI provider: construction *)

Section ProviderConstruction.

Import Js VertexAI.

Lemma provided_truthy (a : option string) (s : string) :
  provided a = Some s -> truthy_string s = true.
Proof.
  destruct a as [t|]; simpl; [|discriminate].
  destruct (truthy_string t) eqn:E; [|discriminate].
  now intros [= <-].
Qed.

Lemma or_string_provided (a b : option string) :
  provided (or_string a b) =
  match provided a with Some s => Some s | None => provided b end.
Proof.
  destruct a as [s|]; simpl; [|reflexivity].
  destruct (truthy_string s) eqn:E; simpl; [now rewrite E | reflexivity].
Qed.

Lemma resolve_projectId_tiers env config :
  provided (resolve_projectId env config) =
  first_provided (project_tiers env config).
Proof.
  unfold resolve_projectId, project_tiers. rewrite !or_string_provided. simpl.
  destruct (provided (projectId config)); [reflexivity|].
  destruct (provided (env !! "VERTEX_PROJECT")); [reflexivity|].
  now destruct (provided (env !! "GOOGLE_CLOUD_PROJECT")).
Qed.

Lemma or_default_provided (a : option string) (d : string) :
  or_default a d = default d (provided a).
Proof.
  destruct a as [s|]; simpl; [|reflexivity].
  now destruct (truthy_string s).
Qed.

Lemma resolve_location_tiers env config :
  Some (resolve_location env config) =
  first_provided (location_tiers env config).
Proof.
  unfold resolve_location, location_tiers.
  rewrite or_default_provided, !or_string_provided. simpl.
  destruct (provided (location config)); [reflexivity|].
  destruct (provided (env !! "VERTEX_LOCATION")); [reflexivity|].
  now destruct (provided (env !! "GOOGLE_CLOUD_LOCATION")).
Qed.

(** The constructor, read off its two outcomes. *)
Lemma constructor_inv registry env config self :
  constructor registry env config = Normal self ->
  exists project_id,
    provided (resolve_projectId env config) = Some project_id /\
    client self =
      {| vertexai := true; project := project_id;
         client_location := resolve_location env config |} /\
    VertexAI.config self = config /\
    maxTokens self =
      (updateDimensionForModel registry (or_else (model config) default_model)).2 /\
    dimension self =
      match outputDimensionality config with
      | Some d =>
          if truthy_number d then d
          else (updateDimensionForModel registry
                  (or_else (model config) default_model)).1
      | None =>
          (updateDimensionForModel registry (or_else (model config) default_model)).1
      end.
Proof.
  unfold constructor.
  destruct (resolve_projectId env config) as [p|]; [|discriminate].
  simpl. destruct (truthy_string p) eqn:E; simpl; [|discriminate].
  destruct (updateDimensionForModel registry _) as [dim tok] eqn:U.
  intros [= <-]. exists p. simpl. repeat split; auto.
Qed.

End ProviderConstruction.

(** C4, as stated, fails for the explicit override [0]: the constructor tests
    the override for truthiness, so the provider keeps the dimension of the
    registry or the default. *)
Lemma override_zero_is_ignored :
  ~ override_wins_as_claimed VertexAI.getSupportedModels ∅
      {| VertexAI.model := "gemini-embedding-001";
         VertexAI.projectId := Some "my-project";
         VertexAI.location := None;
         VertexAI.outputDimensionality := Some 0 |}.
Proof.
  intros H.
  specialize (H 0 _ eq_refl eq_refl).
  vm_compute in H. discriminate H.
Qed.

(** C4 (amended): for every ProviderConfig with an explicit non-zero output
    dimensionality override, [getDimension()] on the constructed provider
    equals the override, whatever the registry holds and whether or not the
    configured model is in it. *)
Theorem getDimension_override
    (registry : gmap string VertexAI.ModelInfo) (env : gmap string string)
    (config : VertexAI.VertexAIEmbeddingConfig)
    (override : Z) (self : VertexAI.VertexAIEmbedding) :
  VertexAI.outputDimensionality config = Some override ->
  override <> 0 ->
  VertexAI.constructor registry env config = Js.Normal self ->
  VertexAI.getDimension self = override.
Proof.
  intros Hov Hnz Hctor.
  apply constructor_inv in Hctor as (p & _ & _ & _ & _ & Hdim).
  unfold VertexAI.getDimension. rewrite Hdim, Hov.
  unfold Js.truthy_number.
  destruct (override =? 0) eqn:E; [apply Z.eqb_eq in E; contradiction | reflexivity].
Qed.

Lemma getDimension_override_witness :
  VertexAI.getDimension
    {| VertexAI.client :=
         {| VertexAI.vertexai := true; VertexAI.project := "my-project";
            VertexAI.client_location := "global" |};
       VertexAI.config :=
         {| VertexAI.model := "some-unlisted-model";
            VertexAI.projectId := Some "my-project";
            VertexAI.location := None;
            VertexAI.outputDimensionality := Some 768 |};
       VertexAI.dimension := 768; VertexAI.maxTokens := 2048 |} = 768.
Proof.
  apply (getDimension_override VertexAI.getSupportedModels ∅
           {| VertexAI.model := "some-unlisted-model";
              VertexAI.projectId := Some "my-project";
              VertexAI.location := None;
              VertexAI.outputDimensionality := Some 768 |} 768).
  - reflexivity.
  - lia.
  - vm_compute. reflexivity.
Defined.

(** C7, as stated, fails for the empty model name: it is no key of the
    registry, but [config.model || 'gemini-embedding-001'] reads the default
    model's entry, whose supported dimensions are four. *)
Lemma empty_model_name_reads_default_entry :
  ~ unlisted_model_as_claimed VertexAI.getSupportedModels ∅
      {| VertexAI.model := "";
         VertexAI.projectId := Some "my-project";
         VertexAI.location := None;
         VertexAI.outputDimensionality := None |}.
Proof.
  intros H.
  destruct (H _ eq_refl eq_refl eq_refl) as (_ & _ & Hdims & _).
  vm_compute in Hdims. discriminate Hdims.
Qed.

(** C7 (amended): for every non-empty configured model name that is absent
    from the registry and is not the name of a member inherited from
    [Object.prototype], the provider resolves dimension 3072 and maximum
    input token count 2048 at construction (absent an explicit override), and
    [getSupportedDimensions()] returns exactly the singleton list of its
    resolved dimension, so [isDimensionSupported(d)] holds only for that
    dimension. *)
Theorem unlisted_model_defaults
    (registry : gmap string VertexAI.ModelInfo) (env : gmap string string)
    (config : VertexAI.VertexAIEmbeddingConfig)
    (self : VertexAI.VertexAIEmbedding) :
  VertexAI.model config <> "" ->
  (* the registry object inherits nothing under this name, so that indexing
     it is the lookup of its own entries *)
  Js.Object_prototype_member (VertexAI.model config) = false ->
  registry !! VertexAI.model config = None ->
  VertexAI.constructor registry env config = Js.Normal self ->
  VertexAI.maxTokens self = 2048 /\
  (VertexAI.outputDimensionality config = None ->
   VertexAI.getDimension self = 3072) /\
  VertexAI.getSupportedDimensions registry self = [VertexAI.getDimension self] /\
  (forall d,
     VertexAI.isDimensionSupported registry self d = true <->
     d = VertexAI.getDimension self).
Proof.
  intros Hne _ HAbsent Hctor.
  apply constructor_inv in Hctor as (p & _ & _ & Hcfg & Htok & Hdim).
  assert (Hm : VertexAI.or_else (VertexAI.model config) VertexAI.default_model
               = VertexAI.model config).
  { unfold VertexAI.or_else. destruct (VertexAI.model config); [congruence | reflexivity]. }
  rewrite Hm in Htok, Hdim.
  unfold VertexAI.updateDimensionForModel in Htok, Hdim.
  rewrite HAbsent in Htok, Hdim. simpl in Htok, Hdim.
  assert (Hdims :
    VertexAI.getSupportedDimensions registry self = [VertexAI.getDimension self]).
  { unfold VertexAI.getSupportedDimensions. rewrite Hcfg, Hm, HAbsent. reflexivity. }
  split; [exact Htok|]. split.
  { intros Hnone. unfold VertexAI.getDimension. now rewrite Hdim, Hnone. }
  split; [exact Hdims|].
  intros d. unfold VertexAI.isDimensionSupported. rewrite Hdims.
  rewrite bool_decide_eq_true. apply list_elem_of_singleton.
Qed.

Lemma unlisted_model_defaults_witness :
  let self :=
    {| VertexAI.client :=
         {| VertexAI.vertexai := true; VertexAI.project := "my-project";
            VertexAI.client_location := "global" |};
       VertexAI.config :=
         {| VertexAI.model := "some-unlisted-model";
            VertexAI.projectId := Some "my-project";
            VertexAI.location := None;
            VertexAI.outputDimensionality := None |};
       VertexAI.dimension := 3072; VertexAI.maxTokens := 2048 |} in
  VertexAI.maxTokens self = 2048 /\
  (VertexAI.outputDimensionality (VertexAI.config self) = None ->
   VertexAI.getDimension self = 3072) /\
  VertexAI.getSupportedDimensions VertexAI.getSupportedModels self
    = [VertexAI.getDimension self] /\
  (forall d,
     VertexAI.isDimensionSupported VertexAI.getSupportedModels self d = true <->
     d = VertexAI.getDimension self).
Proof.
  apply (unlisted_model_defaults VertexAI.getSupportedModels ∅
           {| VertexAI.model := "some-unlisted-model";
              VertexAI.projectId := Some "my-project";
              VertexAI.location := None;
              VertexAI.outputDimensionality := None |}).
  - discriminate.
  - vm_compute. reflexivity.
  - vm_compute. reflexivity.
  - vm_compute. reflexivity.
Defined.

(** C8: the constructor resolves the project from the tiers config value,
    [VERTEX_PROJECT], [GOOGLE_CLOUD_PROJECT], and the location from the tiers
    config value, [VERTEX_LOCATION], [GOOGLE_CLOUD_LOCATION], hard-coded
    ["global"]; the first tier that provides a non-empty value wins. It
    throws the project-id error exactly when no project tier provides a value;
    the location always resolves. With every tier empty, construction fails on
    the project id. *)
Theorem constructor_resolution
    (registry : gmap string VertexAI.ModelInfo) (env : gmap string string)
    (config : VertexAI.VertexAIEmbeddingConfig) :
  match first_provided (project_tiers env config) with
  | Some project_id =>
      exists self location,
        VertexAI.constructor registry env config = Js.Normal self /\
        first_provided (location_tiers env config) = Some location /\
        VertexAI.project (VertexAI.client self) = project_id /\
        VertexAI.client_location (VertexAI.client self) = location
  | None =>
      VertexAI.constructor registry env config
      = Js.Throw (Js.newError VertexAI.project_required_message)
  end /\
  VertexAI.constructor registry ∅
    {| VertexAI.model := VertexAI.model config; VertexAI.projectId := None;
       VertexAI.location := None;
       VertexAI.outputDimensionality := VertexAI.outputDimensionality config |}
  = Js.Throw (Js.newError VertexAI.project_required_message).
Proof.
  split; [|reflexivity].
  rewrite <- resolve_projectId_tiers, <- resolve_location_tiers.
  unfold VertexAI.constructor.
  destruct (VertexAI.resolve_projectId env config) as [p|]; simpl; [|reflexivity].
  destruct (Js.truthy_string p) eqn:E; simpl; [|reflexivity].
  destruct (VertexAI.updateDimensionForModel registry _) as [dim tok].
  eexists _, _. repeat split.
Qed.

Example constructor_env_project :
  exists self,
    VertexAI.constructor VertexAI.getSupportedModels
      {[ "GOOGLE_CLOUD_PROJECT" := "fallback-project";
         "VERTEX_LOCATION" := "us-central1" ]}
      {| VertexAI.model := "gemini-embedding-001"; VertexAI.projectId := Some "";
         VertexAI.location := None; VertexAI.outputDimensionality := None |}
    = Js.Normal self /\
    VertexAI.project (VertexAI.client self) = "fallback-project" /\
    VertexAI.client_location (VertexAI.client self) = "us-central1".
Proof. eexists. vm_compute. repeat split. Qed.

(** ** The Vertex AI provider: [embedBatch] *)

Section EmbedBatch.

Import Js VertexAI.

Lemma map_throwing_ok (embs : list ContentEmbedding) :
  forallb has_values embs = true ->
  exists vectors,
    map_throwing to_vector embs = Normal vectors /\
    Forall2 carries embs vectors.
Proof.
  induction embs as [|e embs IH]; simpl; intros H.
  - exists []. split; [reflexivity | constructor].
  - apply andb_prop in H as [He Hrest].
    destruct (IH Hrest) as (vs & Hvs & Hall).
    unfold has_values in He.
    destruct (values e) as [x|] eqn:Ex; [|discriminate].
    unfold to_vector at 1. rewrite Ex, Hvs.
    exists ({| vector := x; vec_dimension := Z.of_nat (List.length x) |} :: vs).
    split; [reflexivity|].
    constructor; [|exact Hall]. split; simpl; auto.
Qed.

Lemma map_throwing_fail (embs : list ContentEmbedding) :
  forallb has_values embs = false ->
  map_throwing to_vector embs
  = Throw (newError "Vertex AI embedding API returned invalid embedding data").
Proof.
  induction embs as [|e embs IH]; simpl; intros H; [discriminate|].
  unfold to_vector at 1. unfold has_values at 1 in H.
  destruct (values e) as [x|] eqn:Ex; [|reflexivity].
  simpl in H. now rewrite (IH H).
Qed.

Lemma batch_failure_cause (e : Thrown) :
  batch_failure e = batch_error (reported_cause e).
Proof. now destruct e. Qed.

End EmbedBatch.

(** C5, as stated, fails when the backend returns fewer embeddings than the
    request has contents: [embedBatch] maps over the embeddings of the
    response and never compares their number with the number of inputs. For
    two texts and a backend that answers the first only, it returns one
    vector, and no error. *)
Lemma short_response_gives_short_list :
  ~ embedBatch_as_claimed short_backend (fun _ texts => texts) gemini_provider
      ["a"; "b"].
Proof.
  unfold embedBatch_as_claimed. vm_compute. discriminate.
Qed.

(** C5 (amended): for every list of texts, [embedBatch] ends in one of two
    ways, decided by the backend's answer to the one request. When the
    backend returns a response with embeddings that all carry vector data, it
    returns the vectors of these embeddings: one per returned embedding, in
    the order of the response, each with the embedding's values and their
    number as its dimension (so: one vector per input exactly when the
    backend returns as many embeddings as there are inputs). Otherwise it
    throws one [Error] and returns no list, also no partial one; the
    message is ["Vertex AI batch embedding failed: "] followed by the cause:
    the message of the [Error] the backend threw (["Unknown error"] for a
    thrown value that is no [Error]), the text for a response without
    embeddings, or the text for an embedding without values. *)
Theorem embedBatch_vectors_or_error
    (embedContent :
       VertexAI.GoogleGenAI -> VertexAI.EmbedContentParameters ->
       Js.Completion VertexAI.EmbedContentResponse)
    (preprocessTexts : Z -> list string -> list string)
    (self : VertexAI.VertexAIEmbedding) (texts : list string) :
  let request := VertexAI.batch_request preprocessTexts self texts in
  let outcome := VertexAI.embedBatch embedContent preprocessTexts self texts in
  match embedContent (VertexAI.client self) request with
  | Js.Throw e =>
      outcome = Js.Throw (batch_error (reported_cause e))
  | Js.Normal response =>
      match VertexAI.embeddings response with
      | None =>
          outcome = Js.Throw
            (batch_error "Vertex AI embedding API returned invalid response")
      | Some embs =>
          if forallb has_values embs
          then
            exists vectors,
              outcome = Js.Normal vectors /\
              Forall2 carries embs vectors /\
              List.length vectors = List.length embs /\
              (List.length vectors = List.length texts <->
               List.length embs = List.length texts)
          else
            outcome = Js.Throw
              (batch_error "Vertex AI embedding API returned invalid embedding data")
      end
  end.
Proof.
  intros request outcome.
  subst outcome. unfold VertexAI.embedBatch, VertexAI.embedBatch_try.
  fold request.
  destruct (embedContent (VertexAI.client self) request) as [response|e] eqn:Hcall.
  - destruct (VertexAI.embeddings response) as [embs|] eqn:Hembs; [|reflexivity].
    destruct (forallb has_values embs) eqn:Hall.
    + destruct (map_throwing_ok embs Hall) as (vectors & Hmap & Hcarry).
      exists vectors. rewrite Hmap. split; [reflexivity|].
      split; [exact Hcarry|].
      pose proof (Forall2_length _ _ _ Hcarry) as Hlen.
      split; [now symmetry|]. now rewrite Hlen.
    + rewrite (map_throwing_fail embs Hall). reflexivity.
  - now rewrite batch_failure_cause.
Qed.

(** ** The lifecycle of one indexing run *)

Section Lifecycle.

Import Js Snapshot Cli.

Variable resolve : string -> string.
Variable win32 : bool.
Variable env : Collaborators.

Lemma for_each_progress (events : list Progress) (w : World) :
  for_each (fun p => emit (OnProgress p) ;;; set_lastProgress (percentage p))
           events w
  = (Value tt,
     {| persisted := persisted w; snapshot := snapshot w; clock := clock w;
        customExtensions := customExtensions w;
        customIgnorePatterns := customIgnorePatterns w;
        lastProgress :=
          default (lastProgress w) (last (percentage <$> events));
        trace := rev (OnProgress <$> events) ++ trace w |}).
Proof.
  revert w. induction events as [|p events IH]; intros w.
  - destruct w; reflexivity.
  - cbn [for_each]. unfold bind at 1. unfold bind at 1.
    cbn [emit modify set_lastProgress]. rewrite IH. cbn.
    f_equal. f_equal.
    + rewrite last_cons. now destruct (last (percentage <$> events)).
    + now rewrite <- app_assoc.
Qed.

Ltac run_cbn :=
  cbn [bind ret when emit modify console_error process_exit await
       fs_existsSync fs_statSync_isDirectory getCodebaseStatus
       context_hasIndex vectorDatabase_checkCollectionLimit
       createEngine loadCodebaseSnapshot saveCodebaseSnapshot
       setCodebaseIndexing set_snapshot set_lastProgress
       persisted snapshot clock customExtensions customIgnorePatterns
       lastProgress trace negb andb fst snd].

(** A run that fails one of the four checks leaves at once: nothing but the
    checks up to the failing one, the report and the exit. *)
Lemma runIndex_fails (pathArg : string) (options : Options) (w : World) (f : Failure) :
  let identity := Utils.ensureAbsolutePath resolve win32 pathArg in
  preflight env identity (opt_force options) (Snapshot.load (persisted w)) = Fails f ->
  runIndex resolve win32 env pathArg options w
  = (Exited 1,
     {| persisted := persisted w;
        snapshot := Snapshot.load (persisted w);
        clock := clock w;
        customExtensions := customExtensions w;
        customIgnorePatterns := customIgnorePatterns w;
        lastProgress := lastProgress w;
        trace :=
          ProcessExit 1 :: ConsoleError (failure_report env identity f)
          :: checks_made env identity f ++ LoadSnapshot :: trace w |}).
Proof.
  intros identity. unfold preflight, runIndex. fold identity.
  unfold failure_report, checks_made.
  unfold context_hasIndex, vectorDatabase_checkCollectionLimit, await.
  destruct (existsSync env identity) eqn:Hex; run_cbn; rewrite ?Hex; run_cbn;
    [|intros [= <-]; reflexivity].
  destruct (isDirectory env identity) eqn:Hdir; run_cbn; rewrite ?Hdir; run_cbn;
    [|intros [= <-]; reflexivity].
  destruct (bool_decide (getStatus (Snapshot.load (persisted w)) identity = indexing))
    eqn:Hst; run_cbn; rewrite ?Hst; run_cbn; [intros [= <-]; reflexivity|].
  destruct (hasIndex env identity) as [has|e] eqn:Hhas; run_cbn; rewrite ?Hhas;
    run_cbn; [|discriminate].
  destruct (has && negb (opt_force options)) eqn:Hforce; run_cbn; rewrite ?Hforce;
    run_cbn; [intros [= <-]; reflexivity|].
  destruct (checkCollectionLimit env) as [can|e] eqn:Hcan; run_cbn; rewrite ?Hcan;
    run_cbn; [|discriminate].
  destruct can; run_cbn; [discriminate|].
  intros [= <-]; reflexivity.
Qed.

(** A run in which a collaborator's promise rejects during the checks
    rejects with it, and has only made checks. *)
Lemma runIndex_rejects (pathArg : string) (options : Options) (w : World)
    (e : Js.Thrown) :
  let identity := Utils.ensureAbsolutePath resolve win32 pathArg in
  preflight env identity (opt_force options) (Snapshot.load (persisted w)) = Rejects e ->
  runIndex resolve win32 env pathArg options w
  = (Thrown e,
     {| persisted := persisted w;
        snapshot := Snapshot.load (persisted w);
        clock := clock w;
        customExtensions := customExtensions w;
        customIgnorePatterns := customIgnorePatterns w;
        lastProgress := lastProgress w;
        trace := checks_until_rejection env identity ++ LoadSnapshot :: trace w |}).
Proof.
  intros identity. unfold preflight, runIndex. fold identity.
  unfold checks_until_rejection.
  unfold context_hasIndex, vectorDatabase_checkCollectionLimit, await.
  destruct (existsSync env identity) eqn:Hex; run_cbn; rewrite ?Hex; run_cbn;
    [|discriminate].
  destruct (isDirectory env identity) eqn:Hdir; run_cbn; rewrite ?Hdir; run_cbn;
    [|discriminate].
  destruct (bool_decide (getStatus (Snapshot.load (persisted w)) identity = indexing))
    eqn:Hst; run_cbn; rewrite ?Hst; run_cbn; [discriminate|].
  destruct (hasIndex env identity) as [has|e'] eqn:Hhas; run_cbn; rewrite ?Hhas;
    run_cbn; [|intros [= <-]; reflexivity].
  destruct (has && negb (opt_force options)) eqn:Hforce; run_cbn; rewrite ?Hforce;
    run_cbn; [discriminate|].
  destruct (checkCollectionLimit env) as [can|e'] eqn:Hcan; run_cbn; rewrite ?Hcan;
    run_cbn; [|intros [= <-]; reflexivity].
  destruct can; discriminate.
Qed.

(** A run whose four checks pass: the transition to [indexing] is persisted,
    the pipeline runs, and its end decides the terminal transition. *)
Lemma runIndex_passes (pathArg : string) (options : Options) (w : World) :
  let identity := Utils.ensureAbsolutePath resolve win32 pathArg in
  let run := pipeline_run env identity options w in
  let started :=
    Snapshot.setIndexing (clock w) identity 0%Q (Snapshot.load (persisted w)) in
  preflight env identity (opt_force options) (Snapshot.load (persisted w)) = Passes ->
  runIndex resolve win32 env pathArg options w
  = match result run with
    | Normal stats =>
        (Value tt,
         finished_world env identity options w
           (Snapshot.setIndexed (clock w + elapsed run) identity stats started)
           [SaveSnapshot; SetCodebaseIndexed identity stats])
    | Throw error =>
        (Exited 1,
         finished_world env identity options w
           (Snapshot.setIndexFailed (clock w + elapsed run) identity
              (failure_message error) (last_percentage (progress_events run))
              started)
           [ProcessExit 1;
            ConsoleError ("[INDEX] Failed: " +:+ failure_message error);
            SaveSnapshot;
            SetCodebaseIndexFailed identity (failure_message error)
              (last_percentage (progress_events run))])
    end.
Proof.
  intros identity run started. unfold preflight, runIndex. fold identity.
  unfold context_hasIndex, vectorDatabase_checkCollectionLimit, await.
  destruct (existsSync env identity) eqn:Hex; run_cbn; rewrite ?Hex; run_cbn;
    [|discriminate].
  destruct (isDirectory env identity) eqn:Hdir; run_cbn; rewrite ?Hdir; run_cbn;
    [|discriminate].
  destruct (bool_decide (getStatus (Snapshot.load (persisted w)) identity = indexing))
    eqn:Hst; run_cbn; rewrite ?Hst; run_cbn; [discriminate|].
  destruct (hasIndex env identity) as [has|e'] eqn:Hhas; run_cbn; rewrite ?Hhas;
    run_cbn; [|discriminate].
  destruct (has && negb (opt_force options)) eqn:Hforce; run_cbn; rewrite ?Hforce;
    run_cbn; [discriminate|].
  destruct (checkCollectionLimit env) as [can|e'] eqn:Hcan; run_cbn; rewrite ?Hcan;
    run_cbn; [|discriminate].
  destruct can; run_cbn; [|discriminate].
  intros _.
  assert (Hext : forall (l : list string) (w0 : World),
    when (0 <? Z.of_nat (List.length l)) (context_addCustomExtensions l) w0
    = (Value tt,
       {| persisted := persisted w0; snapshot := snapshot w0; clock := clock w0;
          customExtensions := customExtensions w0 ++ l;
          customIgnorePatterns := customIgnorePatterns w0;
          lastProgress := lastProgress w0; trace := trace w0 |})).
  { intros [|x l] w0; [|reflexivity].
    cbn. rewrite app_nil_r. now destruct w0. }
  assert (Hign : forall (l : list string) (w0 : World),
    when (0 <? Z.of_nat (List.length l)) (context_addCustomIgnorePatterns l) w0
    = (Value tt,
       {| persisted := persisted w0; snapshot := snapshot w0; clock := clock w0;
          customExtensions := customExtensions w0;
          customIgnorePatterns := customIgnorePatterns w0 ++ l;
          lastProgress := lastProgress w0; trace := trace w0 |})).
  { intros [|x l] w0; [|reflexivity].
    cbn. rewrite app_nil_r. now destruct w0. }
  unfold bind at 1. rewrite Hext. cbn [persisted snapshot clock customExtensions customIgnorePatterns lastProgress trace].
  unfold bind at 1. rewrite Hign. cbn [persisted snapshot clock customExtensions customIgnorePatterns lastProgress trace].
  run_cbn.
  unfold try_catch, context_indexCodebase.
  unfold bind at 1. unfold bind at 1. run_cbn.
  unfold bind at 1. unfold bind at 1.
  rewrite for_each_progress. run_cbn.
  change (indexCodebase env (customExtensions w ++ default [] (opt_ext options))
            (customIgnorePatterns w ++ default [] (opt_ignore options))
            identity (opt_force options)) with run.
  unfold await.
  destruct (result run) as [stats|error]; reflexivity.
Qed.

End Lifecycle.

(** C3: a run that ends in a pre-flight failure — PathError, ConcurrencyError,
    AlreadyIndexedError or CapacityError, checked in that order — exits having
    made only the checks up to the failing one: the persisted snapshot is
    what it was and no transition was made. The transition to [indexing]
    with progress 0 and the save that follows it come after all four checks,
    in a run that passes them, and only once. *)
Theorem preflight_failures_leave_snapshot
    (resolve : string -> string) (win32 : bool) (env : Cli.Collaborators)
    (pathArg : string) (options : Cli.Options) (w : Cli.World) :
  let identity := Utils.ensureAbsolutePath resolve win32 pathArg in
  match preflight env identity (Cli.opt_force options)
          (Snapshot.load (Cli.persisted w)) with
  | Fails f =>
      exists w' effects,
        Cli.runIndex resolve win32 env pathArg options w = (Cli.Exited 1, w') /\
        Cli.persisted w' = Cli.persisted w /\
        Cli.trace w' = effects ++ Cli.trace w /\
        effects =
          Cli.ProcessExit 1 :: Cli.ConsoleError (failure_report env identity f)
          :: checks_made env identity f ++ [Cli.LoadSnapshot] /\
        Forall (fun e => is_transition e = false) effects
  | Rejects e =>
      exists w' effects,
        Cli.runIndex resolve win32 env pathArg options w = (Cli.Thrown e, w') /\
        Cli.persisted w' = Cli.persisted w /\
        Cli.trace w' = effects ++ Cli.trace w /\
        Forall (fun e => is_transition e = false) effects
  | Passes =>
      exists outcome w' later,
        Cli.runIndex resolve win32 env pathArg options w = (outcome, w') /\
        Cli.trace w' = later ++ started_trace identity w /\
        Forall (fun e => forall p q, e <> Cli.SetCodebaseIndexing p q) later
  end.
Proof.
  intros identity.
  destruct (preflight env identity (Cli.opt_force options)
              (Snapshot.load (Cli.persisted w))) as [f|e|] eqn:Hpre.
  - eexists _, _. split; [apply runIndex_fails; exact Hpre|].
    cbn [Cli.persisted Cli.trace]. split; [reflexivity|].
    split; [|split; [reflexivity|]].
    + rewrite <- !app_comm_cons, <- app_assoc. reflexivity.
    + unfold checks_made.
      destruct f; try destruct (Cli.existsSync env identity);
        repeat constructor.
  - eexists _, (checks_until_rejection env identity ++ [Cli.LoadSnapshot]).
    split; [apply runIndex_rejects; exact Hpre|].
    cbn [Cli.persisted Cli.trace]. split; [reflexivity|]. split.
    + rewrite <- app_assoc. reflexivity.
    + unfold checks_until_rejection.
      destruct (Cli.hasIndex env identity); repeat constructor.
  - pose proof (runIndex_passes resolve win32 env pathArg options w Hpre) as Hrun.
    cbv zeta in Hrun. fold identity in Hrun.
    assert (Hprogress : forall events : list Cli.Progress,
      Forall (fun e => forall p q, e <> Cli.SetCodebaseIndexing p q)
             (rev (Cli.OnProgress <$> events))).
    { intros events. apply Forall_rev, Forall_fmap, Forall_forall.
      intros x _ p q. discriminate. }
    destruct (Cli.result (pipeline_run env identity options w)) as [stats|error].
    + eexists _, _, _. split; [exact Hrun|].
      unfold finished_world. cbn [Cli.trace]. split.
      * rewrite app_assoc.
        change (?a ++ ?x :: ?b) with (a ++ [x] ++ b).
        rewrite app_assoc. reflexivity.
      * repeat apply Forall_app_2; [| apply Hprogress |];
          repeat constructor; discriminate.
    + eexists _, _, _. split; [exact Hrun|].
      unfold finished_world. cbn [Cli.trace]. split.
      * rewrite app_assoc.
        change (?a ++ ?x :: ?b) with (a ++ [x] ++ b).
        rewrite app_assoc. reflexivity.
      * repeat apply Forall_app_2; [| apply Hprogress |];
          repeat constructor; discriminate.
Qed.

(** The scenarios of the specification: a run on [/repo] that succeeds with
    42 files and 210 chunks, and the status a later process reads. *)
Example run_succeeds_scenario :
  exists w',
    Cli.runIndex (Utils.Posix.resolve "/") false
      (repo_collaborators true success_with_42_files) "/repo" plain_options
      (fresh_process None) = (Cli.Value tt, w') /\
    Snapshot.getStatus (Snapshot.load (Cli.persisted w')) "/repo" = Snapshot.indexed /\
    Snapshot.lastIndexedStats <$> Cli.status_query w' "/repo"
    = Some (Some {| Snapshot.indexedFiles := 42; Snapshot.totalChunks := 210;
                    Snapshot.stats_status := "completed" |}) /\
    Snapshot.lastError <$> Cli.status_query w' "/repo" = Some None.
Proof.
  eexists. split.
  - rewrite runIndex_passes by (vm_compute; reflexivity). reflexivity.
  - vm_compute. repeat split.
Qed.

(** A second run on an indexed repository without [--force] is refused and
    changes nothing. *)
Example run_without_force_scenario :
  forall w',
    Cli.runIndex (Utils.Posix.resolve "/") false
      {| Cli.existsSync := fun _ => true; Cli.isDirectory := fun _ => true;
         Cli.hasIndex := fun _ => Js.Normal true;
         Cli.checkCollectionLimit := Js.Normal true;
         Cli.indexCodebase := fun _ _ _ _ => success_with_42_files;
         Cli.COLLECTION_LIMIT_MESSAGE := "collection limit reached" |}
      "/repo/" plain_options (fresh_process None) = (Cli.Exited 1, w') ->
    Cli.persisted w' = None /\
    Cli.trace w' =
      [Cli.ProcessExit 1;
       Cli.ConsoleError "Codebase '/repo' is already indexed. Use --force to re-index.";
       Cli.HasIndex "/repo"; Cli.GetCodebaseStatus "/repo"; Cli.StatSync "/repo";
       Cli.ExistsSync "/repo"; Cli.LoadSnapshot].
Proof.
  intros w' Hrun. vm_compute in Hrun. injection Hrun as <-. split; reflexivity.
Qed.

(** C1: in every run whose pre-flight checks pass and whose pipeline then
    throws, the record of the identity becomes [index_failed] with the
    error's message and the last percentage the progress events carried, the
    snapshot is saved, and only then the run reports the failure and ends the
    process with code 1: the status query of a later process reads
    [index_failed], that message and that progress. *)
Theorem pipeline_failure_is_persisted
    (resolve : string -> string) (win32 : bool) (env : Cli.Collaborators)
    (pathArg : string) (options : Cli.Options) (w : Cli.World)
    (error : Js.Thrown) :
  let identity := Utils.ensureAbsolutePath resolve win32 pathArg in
  let run := pipeline_run env identity options w in
  let message := Cli.failure_message error in
  let progress := last_percentage (Cli.progress_events run) in
  preflight env identity (Cli.opt_force options)
    (Snapshot.load (Cli.persisted w)) = Passes ->
  Cli.result run = Js.Throw error ->
  exists w',
    Cli.runIndex resolve win32 env pathArg options w = (Cli.Exited 1, w') /\
    Cli.status_query w' identity =
      Some {| Snapshot.status := Snapshot.index_failed;
              Snapshot.progressPercentage := progress;
              Snapshot.lastIndexedStats := None;
              Snapshot.lastError := Some message;
              Snapshot.updatedAt := Cli.clock w + Cli.elapsed run |} /\
    Snapshot.getStatus (Snapshot.load (Cli.persisted w')) identity
      = Snapshot.index_failed /\
    (exists earlier,
       Cli.trace w' =
         [Cli.ProcessExit 1;
          Cli.ConsoleError ("[INDEX] Failed: " +:+ message);
          Cli.SaveSnapshot;
          Cli.SetCodebaseIndexFailed identity message progress] ++ earlier) /\
    (forall name m,
       error = Js.ErrorObject name m -> m <> "" -> message = m).
Proof.
  intros identity run message progress Hpre Hfail.
  pose proof (runIndex_passes resolve win32 env pathArg options w Hpre) as Hrun.
  cbv zeta in Hrun. fold identity run in Hrun. rewrite Hfail in Hrun.
  fold message progress in Hrun.
  eexists. split; [exact Hrun|].
  assert (Hq :
    Cli.status_query
      (finished_world env identity options w
         (Snapshot.setIndexFailed (Cli.clock w + Cli.elapsed run) identity
            message progress
            (Snapshot.setIndexing (Cli.clock w) identity 0%Q
               (Snapshot.load (Cli.persisted w))))
         [Cli.ProcessExit 1;
          Cli.ConsoleError ("[INDEX] Failed: " +:+ message);
          Cli.SaveSnapshot;
          Cli.SetCodebaseIndexFailed identity message progress]) identity
    = Some {| Snapshot.status := Snapshot.index_failed;
              Snapshot.progressPercentage := progress;
              Snapshot.lastIndexedStats := None;
              Snapshot.lastError := Some message;
              Snapshot.updatedAt := Cli.clock w + Cli.elapsed run |}).
  { unfold Cli.status_query, finished_world.
    cbn [Cli.persisted Snapshot.load default from_option id].
    unfold Snapshot.setIndexFailed, Snapshot.setIndexing.
    rewrite !lookup_insert_eq. reflexivity. }
  split; [exact Hq|]. split.
  { unfold Cli.status_query in Hq. unfold Snapshot.getStatus. now rewrite Hq. }
  split.
  { eexists. unfold finished_world. cbn [Cli.trace]. reflexivity. }
  intros name m -> Hm. subst message. unfold Cli.failure_message. simpl.
  destruct m; [contradiction | reflexivity].
Qed.

Lemma pipeline_failure_is_persisted_witness :
  exists w',
    Cli.runIndex (Utils.Posix.resolve "/") false
      (repo_collaborators true timeout_at_37) "/repo" plain_options
      (fresh_process None) = (Cli.Exited 1, w') /\
    Cli.status_query w' "/repo" =
      Some {| Snapshot.status := Snapshot.index_failed;
              Snapshot.progressPercentage := 37%Q;
              Snapshot.lastIndexedStats := None;
              Snapshot.lastError := Some "backend timeout";
              Snapshot.updatedAt := 1005 |}.
Proof.
  destruct (pipeline_failure_is_persisted (Utils.Posix.resolve "/") false
              (repo_collaborators true timeout_at_37) "/repo" plain_options
              (fresh_process None) (Js.newError "backend timeout"))
    as (w' & Hrun & Hquery & _).
  - vm_compute. reflexivity.
  - reflexivity.
  - exists w'. split; [exact Hrun | exact Hquery].
Defined.

(** C2, as stated, fails when the directory of the identity is gone: the
    path check comes first and the run reports the missing path, not the
    indexing in progress. *)
Lemma reentry_of_missing_path_reports_path :
  ~ reentry_as_claimed (Utils.Posix.resolve "/") false
      (repo_collaborators false timeout_at_37) "/repo" plain_options
      (fresh_process repo_being_indexed).
Proof.
  intros H.
  destruct H as (w' & earlier & Hrun & Htrace & _).
  - vm_compute. reflexivity.
  - vm_compute in Hrun. injection Hrun as <-.
    cbn [Cli.trace] in Htrace. discriminate Htrace.
Qed.

(** C2 (amended): for every identity whose record has status [indexing], a
    run on that identity exits with code 1 and leaves the persisted snapshot,
    and so the record, unchanged: it reports the PathError when the path is
    missing or not a directory, and otherwise the ConcurrencyError ("already
    being indexed") right after reading the status, before any check of the
    index or of the collection limit. *)
Theorem reentry_is_refused
    (resolve : string -> string) (win32 : bool) (env : Cli.Collaborators)
    (pathArg : string) (options : Cli.Options) (w : Cli.World) :
  let identity := Utils.ensureAbsolutePath resolve win32 pathArg in
  let failure :=
    if Cli.existsSync env identity && Cli.isDirectory env identity
    then ConcurrencyError else PathError in
  Snapshot.getStatus (Snapshot.load (Cli.persisted w)) identity = Snapshot.indexing ->
  exists w',
    Cli.runIndex resolve win32 env pathArg options w = (Cli.Exited 1, w') /\
    Cli.persisted w' = Cli.persisted w /\
    Cli.status_query w' identity = Cli.status_query w identity /\
    Cli.trace w' =
      Cli.ProcessExit 1 :: Cli.ConsoleError (failure_report env identity failure)
      :: checks_made env identity failure ++ Cli.LoadSnapshot :: Cli.trace w.
Proof.
  intros identity failure Hst.
  assert (Hpre : preflight env identity (Cli.opt_force options)
                   (Snapshot.load (Cli.persisted w)) = Fails failure).
  { unfold preflight, failure.
    destruct (Cli.existsSync env identity && Cli.isDirectory env identity);
      [|reflexivity].
    cbn [negb]. now rewrite bool_decide_eq_true_2. }
  eexists. split; [apply runIndex_fails; exact Hpre|].
  unfold Cli.status_query. cbn [Cli.persisted Cli.trace]. repeat split.
Qed.

Lemma reentry_is_refused_witness :
  exists w',
    Cli.runIndex (Utils.Posix.resolve "/") false
      (repo_collaborators true timeout_at_37) "/repo" plain_options
      (fresh_process repo_being_indexed) = (Cli.Exited 1, w') /\
    Cli.persisted w' = repo_being_indexed /\
    Cli.trace w' =
      [Cli.ProcessExit 1;
       Cli.ConsoleError "Codebase '/repo' is already being indexed.";
       Cli.GetCodebaseStatus "/repo"; Cli.StatSync "/repo";
       Cli.ExistsSync "/repo"; Cli.LoadSnapshot].
Proof.
  destruct (reentry_is_refused (Utils.Posix.resolve "/") false
              (repo_collaborators true timeout_at_37) "/repo" plain_options
              (fresh_process repo_being_indexed))
    as (w' & Hrun & Hsame & _ & Htrace).
  - vm_compute. reflexivity.
  - exists w'. split; [exact Hrun|]. split; [exact Hsame | exact Htrace].
Defined.

(** ** [normalizePath] *)

Section NormalizePathFacts.

Import Utils.

Lemma replace_backslashes_none (s : string) :
  has_backslash (replace_backslashes s) = false.
Proof.
  induction s as [|c s IH]; [reflexivity|].
  cbn [replace_backslashes has_backslash]. rewrite IH, orb_false_r.
  destruct (decide (c = backslash)) as [->|Hc].
  - reflexivity.
  - now apply bool_decide_eq_false_2.
Qed.

Lemma replace_backslashes_id (s : string) :
  has_backslash s = false -> replace_backslashes s = s.
Proof.
  induction s as [|c s IH]; [reflexivity|].
  cbn [replace_backslashes has_backslash]. intros H.
  apply orb_false_elim in H as [Hc Hs].
  apply bool_decide_eq_false_1 in Hc.
  rewrite (IH Hs). now destruct (decide (c = backslash)).
Qed.

Lemma slice_drop_last_length (s : string) :
  String.length (slice_drop_last s) = Nat.pred (String.length s).
Proof.
  induction s as [|c s IH]; [reflexivity|].
  destruct s as [|d s]; [reflexivity|].
  change (slice_drop_last (String c (String d s)))
    with (String c (slice_drop_last (String d s))).
  cbn [String.length]. rewrite IH. reflexivity.
Qed.

Lemma slice_drop_last_no_backslash (s : string) :
  has_backslash s = false -> has_backslash (slice_drop_last s) = false.
Proof.
  induction s as [|c s IH]; [reflexivity|].
  destruct s as [|d s]; [reflexivity|].
  change (slice_drop_last (String c (String d s)))
    with (String c (slice_drop_last (String d s))).
  intros H. cbn [has_backslash] in H. apply orb_false_elim in H as [Hc Hs].
  change (has_backslash (String c (slice_drop_last (String d s))))
    with (bool_decide (c = backslash) || has_backslash (slice_drop_last (String d s))).
  rewrite Hc. apply IH. exact Hs.
Qed.

Lemma strip_loop_no_backslash (fuel : nat) (s : string) :
  has_backslash s = false -> has_backslash (strip_loop fuel s) = false.
Proof.
  revert s. induction fuel as [|fuel IH]; intros s Hs; [exact Hs|].
  cbn [strip_loop].
  destruct ((1 <? Js.length s) && endsWith_slash s); [|exact Hs].
  destruct (is_drive_root s); [exact Hs|].
  apply IH, slice_drop_last_no_backslash, Hs.
Qed.

(** The fuel is enough: the loop is left through its condition or its
    [break]. *)
Lemma strip_loop_exit (fuel : nat) (s : string) :
  (String.length s <= fuel)%nat -> loop_exited (strip_loop fuel s) = true.
Proof.
  revert s. induction fuel as [|fuel IH]; intros s Hlen.
  - destruct s; [reflexivity | inversion Hlen].
  - cbn [strip_loop].
    destruct ((1 <? Js.length s) && endsWith_slash s) eqn:Hcond.
    + destruct (is_drive_root s) eqn:Hroot.
      * unfold loop_exited. rewrite Hroot. apply orb_true_r.
      * apply IH. rewrite slice_drop_last_length. lia.
    + unfold loop_exited. now rewrite Hcond.
Qed.

Lemma strip_trailing_slashes_exit (s : string) :
  loop_exited (strip_trailing_slashes s) = true.
Proof. apply strip_loop_exit. reflexivity. Qed.

Lemma slice_drop_last_absolute (s : string) :
  (1 < Js.length s) ->
  Posix.isAbsolute (slice_drop_last s) = Posix.isAbsolute s.
Proof.
  destruct s as [|c [|d s]]; unfold Js.length; cbn [String.length]; try lia.
  reflexivity.
Qed.

Lemma strip_loop_absolute (fuel : nat) (s : string) :
  Posix.isAbsolute (strip_loop fuel s) = Posix.isAbsolute s.
Proof.
  revert s. induction fuel as [|fuel IH]; intros s; [reflexivity|].
  cbn [strip_loop].
  destruct ((1 <? Js.length s) && endsWith_slash s) eqn:Hcond; [|reflexivity].
  destruct (is_drive_root s); [reflexivity|].
  rewrite IH. apply slice_drop_last_absolute.
  apply andb_prop in Hcond as [Hlen _]. now apply Z.ltb_lt in Hlen.
Qed.

Lemma replace_backslashes_absolute (s : string) :
  Posix.isAbsolute s = true -> Posix.isAbsolute (replace_backslashes s) = true.
Proof.
  destruct s as [|c s]; [discriminate|].
  cbn [Posix.isAbsolute replace_backslashes].
  intros H. apply bool_decide_eq_true_1 in H. subst c. reflexivity.
Qed.

(** Lower-casing moves no separator. *)
Lemma lower_char_slash (c : ascii) :
  bool_decide (lower_char c = slash) = bool_decide (c = slash).
Proof. destruct c as [[] [] [] [] [] [] [] []]; reflexivity. Qed.

Lemma lower_char_backslash (c : ascii) :
  bool_decide (lower_char c = backslash) = bool_decide (c = backslash).
Proof. destruct c as [[] [] [] [] [] [] [] []]; reflexivity. Qed.

Lemma lower_char_letter (c : ascii) :
  is_letter (lower_char c) = is_letter c.
Proof. destruct c as [[] [] [] [] [] [] [] []]; reflexivity. Qed.

Lemma lower_char_colon (c : ascii) :
  bool_decide (lower_char c = ":"%char) = bool_decide (c = ":"%char).
Proof. destruct c as [[] [] [] [] [] [] [] []]; reflexivity. Qed.

Lemma toLowerCase_length (s : string) :
  String.length (toLowerCase s) = String.length s.
Proof. induction s as [|c s IH]; [reflexivity|]. cbn. now rewrite IH. Qed.

Lemma toLowerCase_no_backslash (s : string) :
  has_backslash (toLowerCase s) = has_backslash s.
Proof.
  induction s as [|c s IH]; [reflexivity|].
  cbn [toLowerCase has_backslash]. now rewrite IH, lower_char_backslash.
Qed.

Lemma toLowerCase_endsWith_slash (s : string) :
  endsWith_slash (toLowerCase s) = endsWith_slash s.
Proof.
  induction s as [|c s IH]; [reflexivity|].
  destruct s as [|d s].
  - cbn. apply lower_char_slash.
  - change (endsWith_slash (toLowerCase (String c (String d s))))
      with (endsWith_slash (toLowerCase (String d s))).
    exact IH.
Qed.

Lemma toLowerCase_absolute (s : string) :
  Posix.isAbsolute (toLowerCase s) = Posix.isAbsolute s.
Proof. destruct s as [|c s]; [reflexivity|]. cbn. apply lower_char_slash. Qed.

Lemma toLowerCase_drive_root (s : string) :
  is_drive_root (toLowerCase s) = is_drive_root s.
Proof.
  destruct s as [|c [|d [|e [|f s]]]]; try reflexivity.
  cbn [toLowerCase is_drive_root].
  now rewrite lower_char_letter, lower_char_colon, lower_char_slash.
Qed.

Lemma toLowerCase_loop_exited (s : string) :
  loop_exited (toLowerCase s) = loop_exited s.
Proof.
  unfold loop_exited, Js.length.
  now rewrite toLowerCase_length, toLowerCase_endsWith_slash, toLowerCase_drive_root.
Qed.

(** An absolute POSIX path is no drive root. *)
Lemma absolute_not_drive_root (s : string) :
  Posix.isAbsolute s = true -> is_drive_root s = false.
Proof.
  destruct s as [|c [|d [|e [|f s]]]]; try reflexivity.
  cbn [Posix.isAbsolute is_drive_root]. intros H.
  apply bool_decide_eq_true_1 in H. subst c. reflexivity.
Qed.

(** With an absolute working directory, [resolve] returns an absolute
    path. *)
Lemma posix_resolve_absolute (cwd p : string) :
  Posix.isAbsolute cwd = true -> Posix.isAbsolute (Posix.resolve cwd p) = true.
Proof.
  intros Hcwd. unfold Posix.resolve, Posix.resolve_step.
  assert (Hne : Js.truthy_string cwd = true) by (destruct cwd; [discriminate | reflexivity]).
  rewrite Hne. cbn [negb].
  destruct (negb (Js.truthy_string p)); cbn [fst snd].
  - rewrite Hcwd. reflexivity.
  - destruct (Posix.isAbsolute p); cbn [fst snd]; [reflexivity|].
    rewrite Hcwd. reflexivity.
Qed.

Section AnyPlatform.

Variable resolve : string -> string.
Variable win32 : bool.

(** What [normalizePath] returns for a non-empty input. *)
Lemma normalizePath_nonempty (p : string) :
  p <> "" ->
  normalizePath resolve win32 p =
  (if win32 then toLowerCase else fun s => s)
    (strip_trailing_slashes (replace_backslashes (resolve p))).
Proof.
  intros Hp. unfold normalizePath.
  destruct p; [contradiction|]. cbn [Js.truthy_string negb].
  now destruct win32.
Qed.

Lemma normalizePath_no_backslash (p : string) :
  p <> "" -> has_backslash (normalizePath resolve win32 p) = false.
Proof.
  intros Hp. rewrite normalizePath_nonempty by exact Hp.
  assert (H : has_backslash
                (strip_trailing_slashes (replace_backslashes (resolve p))) = false).
  { apply strip_loop_no_backslash, replace_backslashes_none. }
  destruct win32; [now rewrite toLowerCase_no_backslash | exact H].
Qed.

Lemma normalizePath_loop_exited (p : string) :
  p <> "" -> loop_exited (normalizePath resolve win32 p) = true.
Proof.
  intros Hp. rewrite normalizePath_nonempty by exact Hp.
  destruct win32.
  - rewrite toLowerCase_loop_exited. apply strip_trailing_slashes_exit.
  - apply strip_trailing_slashes_exit.
Qed.

Lemma normalizePath_absolute (p : string) :
  p <> "" ->
  Posix.isAbsolute (resolve p) = true ->
  Posix.isAbsolute (normalizePath resolve win32 p) = true.
Proof.
  intros Hp Habs. rewrite normalizePath_nonempty by exact Hp.
  assert (H : Posix.isAbsolute
                (strip_trailing_slashes (replace_backslashes (resolve p))) = true).
  { unfold strip_trailing_slashes. rewrite strip_loop_absolute.
    now apply replace_backslashes_absolute. }
  destruct win32; [now rewrite toLowerCase_absolute | exact H].
Qed.

End AnyPlatform.

End NormalizePathFacts.

(** C10: [normalizePath] returns the empty string as it is, whatever
    [path.resolve] would make of it, and the empty string is no absolute
    path. A non-empty input comes back without a backslash and with the
    trailing slashes stripped (the loop's exit condition holds), and absolute
    where [path.resolve] returns an absolute path, as on POSIX. *)
Theorem normalizePath_empty_input (resolve : string -> string) (win32 : bool) :
  Utils.normalizePath resolve win32 "" = "" /\
  Utils.Posix.isAbsolute (Utils.normalizePath resolve win32 "") = false /\
  (forall p,
     p <> "" ->
     has_backslash (Utils.normalizePath resolve win32 p) = false /\
     Utils.loop_exited (Utils.normalizePath resolve win32 p) = true) /\
  (forall cwd p,
     p <> "" ->
     Utils.Posix.isAbsolute cwd = true ->
     let identity := Utils.normalizePath (Utils.Posix.resolve cwd) win32 p in
     Utils.Posix.isAbsolute identity = true /\
     (Utils.endsWith_slash identity = true -> identity = "/")).
Proof.
  split; [reflexivity|]. split; [reflexivity|]. split.
  - intros p Hp. split.
    + now apply normalizePath_no_backslash.
    + now apply normalizePath_loop_exited.
  - intros cwd p Hp Hcwd identity.
    assert (Habs : Utils.Posix.isAbsolute identity = true).
    { apply normalizePath_absolute; [exact Hp|].
      now apply posix_resolve_absolute. }
    split; [exact Habs|]. intros Hend.
    pose proof (normalizePath_loop_exited (Utils.Posix.resolve cwd) win32 p Hp) as Hexit.
    fold identity in Hexit. unfold Utils.loop_exited in Hexit.
    rewrite (absolute_not_drive_root _ Habs), Hend, orb_false_r, andb_true_r in Hexit.
    apply negb_true_iff, Z.ltb_ge in Hexit.
    destruct identity as [|c [|d s]].
    + discriminate.
    + cbn in Habs. apply bool_decide_eq_true_1 in Habs. now subst c.
    + unfold Js.length in Hexit. cbn [String.length] in Hexit. lia.
Qed.

Lemma normalizePath_empty_input_witness :
  Utils.normalizePath (Utils.Posix.resolve "/home/u") false "" = "" /\
  Utils.Posix.isAbsolute
    (Utils.normalizePath (Utils.Posix.resolve "/home/u") false "src\lib\") = true /\
  has_backslash
    (Utils.normalizePath (Utils.Posix.resolve "/home/u") false "src\lib\") = false.
Proof.
  destruct (normalizePath_empty_input (Utils.Posix.resolve "/home/u") false)
    as (Hempty & _ & Hany & Hposix).
  destruct (Hany "src\lib\") as [Hnone _]; [discriminate|].
  destruct (Hposix "/home/u" "src\lib\") as [Habs _];
    [discriminate | reflexivity |].
  split; [exact Hempty|]. split; [exact Habs | exact Hnone].
Defined.

(** ** [path.posix.resolve] and the idempotence of [normalizePath] *)

Section PosixFacts.

Import Utils Utils.Posix.
#[local] Arguments String.append : simpl nomatch.

Lemma split_not_nil (s : string) : split s <> [].
Proof.
  induction s as [|c s IH]; cbn [split]; [discriminate|].
  destruct (decide (c = slash)); [discriminate|].
  destruct (split s); discriminate.
Qed.

Lemma split_app_slash (a b : string) :
  split (a +:+ String slash b) = split a ++ split b.
Proof.
  induction a as [|c a IH]; cbn [String.append split].
  - destruct (decide (slash = slash)); [reflexivity | contradiction].
  - rewrite IH. destruct (decide (c = slash)); [reflexivity|].
    pose proof (split_not_nil a) as Hne.
    destruct (split a) as [|seg rest]; [contradiction | reflexivity].
Qed.

Lemma split_no_slash (s : string) : has_slash s = false -> split s = [s].
Proof.
  induction s as [|c s IH]; cbn [has_slash split]; [reflexivity|].
  intros H. apply orb_false_elim in H as [Hc Hs].
  apply bool_decide_eq_false_1 in Hc.
  destruct (decide (c = slash)); [contradiction|].
  now rewrite (IH Hs).
Qed.

Lemma split_segments_no_slash (s : string) :
  Forall (fun seg => has_slash seg = false) (split s).
Proof.
  induction s as [|c s IH]; cbn [split]; [repeat constructor|].
  destruct (decide (c = slash)) as [|Hc]; [constructor; [reflexivity | exact IH]|].
  destruct (split s) as [|seg rest]; [repeat constructor; cbn;
    now rewrite bool_decide_eq_false_2|].
  inversion IH as [|? ? Hseg Hrest]; subst.
  constructor; [|exact Hrest].
  cbn [has_slash]. now rewrite bool_decide_eq_false_2.
Qed.

Lemma split_segments_no_backslash (s : string) :
  has_backslash s = false ->
  Forall (fun seg => has_backslash seg = false) (split s).
Proof.
  induction s as [|c s IH]; cbn [split has_backslash]; [repeat constructor|].
  intros H. apply orb_false_elim in H as [Hc Hs]. specialize (IH Hs).
  destruct (decide (c = slash)) as [|Hne]; [constructor; [reflexivity | exact IH]|].
  destruct (split s) as [|seg rest]; [repeat constructor; cbn; now rewrite Hc|].
  inversion IH as [|? ? Hseg Hrest]; subst.
  constructor; [|exact Hrest].
  cbn [has_backslash]. now rewrite Hc.
Qed.

(** At the root, [normalizeString] keeps only segments it was given. *)
Lemma normalize_fold_keeps (P : string -> Prop) (segs stack : list string) :
  Forall P stack -> Forall P segs ->
  Forall P (fold_left (normalize_step false) segs stack).
Proof.
  revert stack. induction segs as [|seg segs IH]; intros stack Hst Hsegs;
    [exact Hst|].
  inversion Hsegs as [|? ? Hseg Hrest]; subst.
  cbn [fold_left]. apply IH; [|exact Hrest].
  unfold normalize_step.
  destruct (decide (seg = "" \/ seg = ".")); [exact Hst|].
  destruct (decide (seg = "..")).
  - destruct stack as [|top below]; [constructor|].
    destruct (decide (top = "..")); [exact Hst|].
    now inversion Hst.
  - constructor; assumption.
Qed.

Lemma normalize_fold_normal (segs stack : list string) :
  Forall normal_segment stack ->
  Forall (fun seg => has_slash seg = false) segs ->
  Forall normal_segment (fold_left (normalize_step false) segs stack).
Proof.
  revert stack. induction segs as [|seg segs IH]; intros stack Hst Hsegs;
    [exact Hst|].
  inversion Hsegs as [|? ? Hseg Hrest]; subst.
  cbn [fold_left]. apply IH; [|exact Hrest].
  unfold normalize_step.
  destruct (decide (seg = "" \/ seg = ".")) as [|Hn1]; [exact Hst|].
  destruct (decide (seg = "..")) as [|Hn2].
  - destruct stack as [|top below]; [constructor|].
    destruct (decide (top = "..")); [exact Hst|].
    now inversion Hst.
  - constructor; [|exact Hst].
    unfold normal_segment. repeat split; auto.
Qed.

(** Normal segments pass [normalizeString] unchanged. *)
Lemma normalize_fold_id (segs stack : list string) :
  Forall normal_segment segs ->
  fold_left (normalize_step false) segs stack = rev segs ++ stack.
Proof.
  revert stack. induction segs as [|seg segs IH]; intros stack Hsegs;
    [reflexivity|].
  inversion Hsegs as [|? ? (H1 & H2 & H3 & _) Hrest]; subst.
  cbn [fold_left rev]. rewrite IH by exact Hrest.
  unfold normalize_step.
  destruct (decide (seg = "" \/ seg = ".")) as [[?|?]|_]; [contradiction..|].
  destruct (decide (seg = "..")); [contradiction|].
  now rewrite <- app_assoc.
Qed.

Lemma split_concat (segs : list string) :
  segs <> [] ->
  Forall (fun seg => has_slash seg = false) segs ->
  split (String.concat "/" segs) = segs.
Proof.
  induction segs as [|x segs IH]; [contradiction|]. intros _ Hall.
  inversion Hall as [|? ? Hx Hrest]; subst.
  destruct segs as [|y segs].
  - cbn [String.concat]. now apply split_no_slash.
  - change (String.concat "/" (x :: y :: segs))
      with (x +:+ String slash (String.concat "/" (y :: segs))).
    rewrite split_app_slash, split_no_slash by exact Hx.
    rewrite IH; [reflexivity | discriminate | exact Hrest].
Qed.

Lemma has_backslash_app (a b : string) :
  has_backslash (a +:+ b) = has_backslash a || has_backslash b.
Proof.
  induction a as [|c a IH]; cbn [String.append has_backslash]; [reflexivity|].
  now rewrite IH, orb_assoc.
Qed.

Lemma has_backslash_concat (segs : list string) :
  Forall (fun seg => has_backslash seg = false) segs ->
  has_backslash (String.concat "/" segs) = false.
Proof.
  induction segs as [|x segs IH]; [reflexivity|]. intros Hall.
  inversion Hall as [|? ? Hx Hrest]; subst.
  destruct segs as [|y segs]; [exact Hx|].
  change (String.concat "/" (x :: y :: segs))
    with (x +:+ String slash (String.concat "/" (y :: segs))).
  rewrite has_backslash_app, Hx. cbn [has_backslash orb].
  rewrite (IH Hrest). reflexivity.
Qed.

Lemma endsWith_slash_app (a b : string) :
  b <> "" -> endsWith_slash (a +:+ b) = endsWith_slash b.
Proof.
  intros Hb. induction a as [|c a IH]; [reflexivity|].
  cbn [String.append].
  destruct (a +:+ b) as [|d r] eqn:E.
  - destruct a; cbn [String.append] in E; [contradiction | discriminate].
  - exact IH.
Qed.

Lemma endsWith_slash_no_slash (s : string) :
  has_slash s = false -> endsWith_slash s = false.
Proof.
  induction s as [|c s IH]; [reflexivity|]. cbn [has_slash]. intros H.
  apply orb_false_elim in H as [Hc Hs].
  destruct s as [|d s]; [exact Hc | exact (IH Hs)].
Qed.

Lemma endsWith_slash_concat (segs : list string) :
  segs <> [] ->
  Forall normal_segment segs ->
  endsWith_slash (String.concat "/" segs) = false /\
  String.concat "/" segs <> "".
Proof.
  induction segs as [|x segs IH]; [contradiction|]. intros _ Hall.
  inversion Hall as [|? ? (Hx & _ & _ & Hxs) Hrest]; subst.
  destruct segs as [|y segs].
  - cbn [String.concat]. split; [now apply endsWith_slash_no_slash | exact Hx].
  - change (String.concat "/" (x :: y :: segs))
      with (x +:+ String slash (String.concat "/" (y :: segs))).
    destruct IH as [IH1 IH2]; [discriminate | exact Hrest|].
    split.
    + rewrite endsWith_slash_app by discriminate.
      destruct (String.concat "/" (y :: segs)) eqn:E; [contradiction|].
      exact IH1.
    + destruct x; [contradiction | discriminate].
Qed.

Lemma concat_cons_slash (segs : list string) :
  segs <> [] ->
  String.concat "/" segs <> "" ->
  "/" +:+ String.concat "/" segs <> "".
Proof. discriminate. Qed.

(** [resolve] with an absolute working directory: the root and the
    normalized segments of [cwd/p] (of [p] when [p] is absolute). *)
Lemma resolve_shape (cwd p : string) :
  isAbsolute cwd = true ->
  exists full,
    resolve cwd p = "/" +:+ String.concat "/" (normalizeString false (split full)) /\
    (has_backslash cwd = false -> has_backslash p = false ->
     has_backslash full = false).
Proof.
  intros Hcwd. unfold resolve, resolve_step.
  assert (Hne : Js.truthy_string cwd = true)
    by (destruct cwd; [discriminate | reflexivity]).
  rewrite Hne. cbn [negb].
  destruct (Js.truthy_string p) eqn:Hp; cbn [negb fst snd].
  - destruct (isAbsolute p) eqn:Habs; cbn [fst snd].
    + eexists. split; [reflexivity|]. intros _ Hb.
      now rewrite !has_backslash_app, Hb.
    + rewrite Hcwd. cbn [negb]. eexists. split; [reflexivity|]. intros Hc Hb.
      now rewrite !has_backslash_app, Hc, Hb.
  - rewrite Hcwd. cbn [negb]. eexists. split; [reflexivity|]. intros Hc _.
    now rewrite !has_backslash_app, Hc.
Qed.

Lemma normalizeString_normal (full : string) :
  Forall normal_segment (normalizeString false (split full)).
Proof.
  unfold normalizeString. apply Forall_rev, normalize_fold_normal.
  - constructor.
  - apply split_segments_no_slash.
Qed.

Lemma normalizeString_no_backslash (full : string) :
  has_backslash full = false ->
  Forall (fun seg => has_backslash seg = false)
         (normalizeString false (split full)).
Proof.
  intros H. unfold normalizeString. apply Forall_rev, normalize_fold_keeps.
  - constructor.
  - now apply split_segments_no_backslash.
Qed.

Lemma normal_segments_no_slash (segs : list string) :
  Forall normal_segment segs -> Forall (fun seg => has_slash seg = false) segs.
Proof.
  intros Hall. eapply Forall_impl; [exact Hall|].
  now intros seg (_ & _ & _ & H).
Qed.

(** A root followed by normal segments is a fixed point of [resolve]. *)
Lemma resolve_fixed (cwd : string) (segs : list string) :
  Forall normal_segment segs ->
  resolve cwd ("/" +:+ String.concat "/" segs) = "/" +:+ String.concat "/" segs.
Proof.
  intros Hall. unfold resolve, resolve_step.
  change ("/" +:+ String.concat "/" segs) with (String slash (String.concat "/" segs)).
  cbn [Js.truthy_string negb isAbsolute fst snd].
  rewrite bool_decide_eq_true_2 by reflexivity. cbn [negb].
  change (String slash (String.concat "/" segs) +:+ "/" +:+ "")
    with ("" +:+ String slash (String.concat "/" segs +:+ String slash "")).
  cbn [fst snd negb].
  rewrite !split_app_slash. cbn [split].
  unfold normalizeString.
  destruct segs as [|x segs].
  - reflexivity.
  - rewrite split_concat;
      [| discriminate | now apply normal_segments_no_slash].
    rewrite !fold_left_app.
    replace (fold_left (normalize_step false) [""] []) with (@nil string)
      by reflexivity.
    rewrite (normalize_fold_id (x :: segs)) by exact Hall.
    replace (fold_left (normalize_step false) [""] (rev (x :: segs) ++ []))
      with (rev (x :: segs) ++ []) by reflexivity.
    now rewrite app_nil_r, rev_involutive.
Qed.

(** Such a path has no trailing slash to strip. *)
Lemma strip_trailing_slashes_fixed (segs : list string) :
  Forall normal_segment segs ->
  strip_trailing_slashes ("/" +:+ String.concat "/" segs)
  = "/" +:+ String.concat "/" segs.
Proof.
  intros Hall. unfold strip_trailing_slashes.
  change ("/" +:+ String.concat "/" segs) with (String slash (String.concat "/" segs)).
  cbn [String.length strip_loop].
  destruct segs as [|x segs]; [reflexivity|].
  destruct (endsWith_slash_concat (x :: segs)) as [Hend Hne];
    [discriminate | exact Hall|].
  assert (E : endsWith_slash (String slash (String.concat "/" (x :: segs))) = false).
  { destruct (String.concat "/" (x :: segs)); [contradiction | exact Hend]. }
  now rewrite E, andb_false_r.
Qed.

(** On POSIX, a path without a backslash is normalized to what [resolve]
    makes of it. *)
Lemma normalizePath_posix_resolve (cwd p : string) :
  isAbsolute cwd = true ->
  has_backslash cwd = false ->
  has_backslash p = false ->
  p <> "" ->
  normalizePath (resolve cwd) false p = resolve cwd p.
Proof.
  intros Hcwd Hc Hb Hp.
  rewrite normalizePath_nonempty by exact Hp.
  destruct (resolve_shape cwd p Hcwd) as (full & Hres & Hfull).
  rewrite Hres.
  rewrite replace_backslashes_id.
  - apply strip_trailing_slashes_fixed, normalizeString_normal.
  - change ("/" +:+ ?s) with (String slash s). cbn [has_backslash].
    rewrite bool_decide_eq_false_2 by discriminate.
    apply has_backslash_concat, normalizeString_no_backslash, Hfull; assumption.
Qed.

(** X7: on POSIX, with an absolute working directory, [normalizePath] is
    idempotent on the paths without a backslash. *)
Lemma normalizePath_posix_idempotent (cwd p : string) :
  isAbsolute cwd = true ->
  has_backslash cwd = false ->
  has_backslash p = false ->
  normalizePath (resolve cwd) false (normalizePath (resolve cwd) false p)
  = normalizePath (resolve cwd) false p.
Proof.
  intros Hcwd Hc Hb.
  destruct (decide (p = "")) as [->|Hp]; [reflexivity|].
  rewrite (normalizePath_posix_resolve cwd p) by assumption.
  destruct (resolve_shape cwd p Hcwd) as (full & Hres & Hfull).
  assert (Hnormal := normalizeString_normal full).
  assert (Hnb := normalizeString_no_backslash full (Hfull Hc Hb)).
  rewrite Hres.
  rewrite normalizePath_nonempty by discriminate.
  rewrite resolve_fixed by exact Hnormal.
  rewrite replace_backslashes_id.
  - now apply strip_trailing_slashes_fixed.
  - change ("/" +:+ ?s) with (String slash s). cbn [has_backslash].
    rewrite bool_decide_eq_false_2 by discriminate.
    now apply has_backslash_concat.
Qed.

Lemma append_assoc (a b c : string) : (a +:+ b) +:+ c = a +:+ b +:+ c.
Proof.
  induction a as [|x a IH]; cbn [String.append]; [reflexivity|].
  now rewrite IH.
Qed.

Lemma append_nil_r (a : string) : a +:+ "" = a.
Proof.
  induction a as [|x a IH]; cbn [String.append]; [reflexivity|].
  now rewrite IH.
Qed.

Lemma normalize_step_empty (allow : bool) (stack : list string) :
  normalize_step allow stack "" = stack.
Proof. reflexivity. Qed.

Lemma normalizeString_trailing_slash (allow : bool) (pre q : string) :
  normalizeString allow (split (pre +:+ (q +:+ "/") +:+ "/" +:+ ""))
  = normalizeString allow (split (pre +:+ q +:+ "/" +:+ "")).
Proof.
  unfold normalizeString. f_equal.
  rewrite <- !append_assoc, !append_nil_r.
  change "/" with (String slash "").
  rewrite !split_app_slash, !fold_left_app.
  cbn [split fold_left]. now rewrite !normalize_step_empty.
Qed.

Lemma normalizeString_trailing_slash_cwd (allow : bool) (cwd q : string) :
  normalizeString allow (split (cwd +:+ "/" +:+ (q +:+ "/") +:+ "/" +:+ ""))
  = normalizeString allow (split (cwd +:+ "/" +:+ q +:+ "/" +:+ "")).
Proof.
  pose proof (normalizeString_trailing_slash allow (cwd +:+ "/") q) as H.
  now rewrite !(append_assoc cwd "/") in H.
Qed.

(** On POSIX, a trailing slash makes no difference to [resolve]. *)
Lemma resolve_trailing_slash (cwd p : string) :
  p <> "" -> resolve cwd (p +:+ "/") = resolve cwd p.
Proof.
  intros Hp. unfold resolve, resolve_step.
  assert (T1 : Js.truthy_string (p +:+ "/") = true) by now destruct p.
  assert (T2 : isAbsolute (p +:+ "/") = isAbsolute p)
    by (destruct p; [contradiction | reflexivity]).
  assert (T3 : Js.truthy_string p = true)
    by (destruct p; [contradiction | reflexivity]).
  rewrite T1, T2, T3. cbn [negb fst snd].
  destruct (isAbsolute p); cbn [fst snd negb].
  - pose proof (normalizeString_trailing_slash false "" p) as H.
    change ("" +:+ ?x) with x in H. now rewrite H.
  - destruct (Js.truthy_string cwd); cbn [fst snd negb].
    + now rewrite normalizeString_trailing_slash_cwd.
    + pose proof (normalizeString_trailing_slash true "" p) as H.
      change ("" +:+ ?x) with x in H. now rewrite H.
Qed.

(** X8: on POSIX, a non-empty path and the same path with one more trailing
    slash have the same identity, backslashes or not. *)
Lemma normalizePath_posix_trailing_slash (cwd p : string) (win32 : bool) :
  p <> "" ->
  normalizePath (resolve cwd) win32 (p +:+ "/")
  = normalizePath (resolve cwd) win32 p.
Proof.
  intros Hp.
  rewrite !normalizePath_nonempty; [| exact Hp | destruct p; [contradiction | discriminate]].
  now rewrite resolve_trailing_slash.
Qed.

End PosixFacts.

Example posix_resolve_relative :
  Utils.Posix.resolve "/home/u" "a/../b/./c/" = "/home/u/b/c".
Proof. vm_compute. reflexivity. Qed.

Example posix_resolve_above_root : Utils.Posix.resolve "/home/u" "/../x//y" = "/x/y".
Proof. vm_compute. reflexivity. Qed.

Example posix_resolve_empty : Utils.Posix.resolve "/home/u" "" = "/home/u".
Proof. vm_compute. reflexivity. Qed.

Example posix_resolve_relative_cwd : Utils.Posix.resolve "" "../a/b/../.." = "..".
Proof. vm_compute. reflexivity. Qed.

Example normalizePath_trailing_backslashes :
  Utils.normalizePath (Utils.Posix.resolve "/home/u") false "a\\\" = "/home/u/a".
Proof. vm_compute. reflexivity. Qed.

(** C6: on POSIX, where [path.resolve] does not take a backslash for a
    separator, [normalizePath] resolves before it converts the backslashes.
    For the path [docs\..\src] it returns an identity that still holds the
    [..] segment; normalizing that identity again gives another one, the
    identity of the forward-slash spelling [docs/../src]. Idempotence and the
    agreement of the two separator styles both fail at this input. *)
Theorem normalizePath_backslash_dotdot_posix :
  let normalize := Utils.normalizePath (Utils.Posix.resolve "/home/u") false in
  normalize "docs\..\src" = "/home/u/docs/../src" /\
  normalize (normalize "docs\..\src") = "/home/u/src" /\
  normalize "docs/../src" = "/home/u/src" /\
  normalize (normalize "docs\..\src") <> normalize "docs\..\src" /\
  normalize "docs\..\src" <> normalize "docs/../src".
Proof. vm_compute. repeat split; discriminate. Qed.

Example embedBatch_two_texts :
  VertexAI.embedBatch unit_backend (fun _ texts => texts) gemini_provider ["a"; "b"]
  = Js.Normal
      [ {| VertexAI.vector := [1%Q; 0%Q]; VertexAI.vec_dimension := 2 |};
        {| VertexAI.vector := [0%Q; 1%Q]; VertexAI.vec_dimension := 2 |} ].
Proof. vm_compute. reflexivity. Qed.

Example embedBatch_backend_failure :
  VertexAI.embedBatch (fun _ _ => Js.Throw (Js.newError "quota exceeded"))
    (fun _ texts => texts) gemini_provider ["a"; "b"]
  = Js.Throw (Js.newError "Vertex AI batch embedding failed: quota exceeded").
Proof. vm_compute. reflexivity. Qed.

Example embedBatch_one_bad_embedding :
  VertexAI.embedBatch
    (fun _ _ => Js.Normal {| VertexAI.embeddings :=
       Some [ {| VertexAI.values := Some [1%Q] |};
              {| VertexAI.values := None |} ] |})
    (fun _ texts => texts) gemini_provider ["a"; "b"]
  = Js.Throw (Js.newError
      "Vertex AI batch embedding failed: Vertex AI embedding API returned invalid embedding data").
Proof. vm_compute. reflexivity. Qed.

(* ================================================================== *)
(** * Further properties of the code *)
(* ================================================================== *)

(** ** [truncateContent] *)

Lemma substring_app_exact (a b : string) :
  String.substring 0 (String.length a) (a +:+ b) = a.
Proof.
  induction a as [|c a IH].
  - change ("" +:+ b) with b. destruct b; reflexivity.
  - change (String c a +:+ b) with (String c (a +:+ b)).
    cbn [String.length String.substring]. now rewrite IH.
Qed.

(** X1: truncating twice to the same [maxLength] gives what truncating once
    gives, for every content and every integer [maxLength]. *)
Theorem truncateContent_idempotent (content : string) (maxLength : Z) :
  Utils.truncateContent (Utils.truncateContent content maxLength) maxLength
  = Utils.truncateContent content maxLength.
Proof.
  unfold Utils.truncateContent at 2 3.
  destruct (Js.length content <=? maxLength) eqn:E.
  - unfold Utils.truncateContent. now rewrite E.
  - apply Z.leb_gt in E. unfold Utils.substring_to.
    destruct (substring_prefix (Z.to_nat maxLength) content) as (rest & _ & Hlen).
    { unfold Js.length in E. lia. }
    set (first := String.substring 0 (Z.to_nat maxLength) content) in *.
    unfold Utils.truncateContent.
    assert (Hlong : (Js.length (first +:+ "...") <=? maxLength) = false).
    { apply Z.leb_gt. rewrite length_app. unfold Js.length at 1. rewrite Hlen.
      change (Js.length "...") with 3. lia. }
    rewrite Hlong. unfold Utils.substring_to.
    rewrite <- Hlen at 1. now rewrite substring_app_exact.
Qed.

(** X2: the result of [truncateContent] is never longer than
    [max(0, maxLength) + 3]. *)
Theorem truncateContent_length_bound (content : string) (maxLength : Z) :
  Js.length (Utils.truncateContent content maxLength) <= Z.max 0 maxLength + 3.
Proof.
  unfold Utils.truncateContent.
  destruct (Js.length content <=? maxLength) eqn:E.
  - apply Z.leb_le in E. lia.
  - apply Z.leb_gt in E. unfold Utils.substring_to.
    destruct (substring_prefix (Z.to_nat maxLength) content) as (rest & _ & Hlen).
    { unfold Js.length in E. lia. }
    rewrite length_app. unfold Js.length at 1. rewrite Hlen.
    change (Js.length "...") with 3. lia.
Qed.

(** ** [normalizePath] on any platform *)

Section NormalizePathAnyPlatform.
Import Utils.

Lemma strip_loop_not_empty (fuel : nat) (s : string) :
  s <> "" -> strip_loop fuel s <> "".
Proof.
  revert s. induction fuel as [|fuel IH]; intros s Hs; [exact Hs|].
  cbn [strip_loop].
  destruct ((1 <? Js.length s) && endsWith_slash s) eqn:Hcond; [|exact Hs].
  destruct (is_drive_root s); [exact Hs|].
  apply IH. apply andb_prop in Hcond as [Hlen _]. apply Z.ltb_lt in Hlen.
  destruct s as [|c [|d s]]; unfold Js.length in Hlen; cbn [String.length] in Hlen;
    try lia.
  discriminate.
Qed.

Lemma replace_backslashes_not_empty (s : string) :
  s <> "" -> replace_backslashes s <> "".
Proof. destruct s; [contradiction | discriminate]. Qed.

Lemma toLowerCase_not_empty (s : string) : s <> "" -> toLowerCase s <> "".
Proof. destruct s; [contradiction | discriminate]. Qed.

Lemma lower_char_not_upper (c : ascii) :
  ((65 <=? N_of_ascii (lower_char c))%N && (N_of_ascii (lower_char c) <=? 90)%N)
  = false.
Proof. destruct c as [[] [] [] [] [] [] [] []]; reflexivity. Qed.

Lemma toLowerCase_no_upper (s : string) : has_upper (toLowerCase s) = false.
Proof.
  induction s as [|c s IH]; [reflexivity|].
  cbn [toLowerCase has_upper]. now rewrite lower_char_not_upper, IH.
Qed.

Lemma lower_char_replace (c : ascii) :
  lower_char (if decide (c = backslash) then slash else c)
  = if decide (lower_char c = backslash) then slash else lower_char c.
Proof. destruct c as [[] [] [] [] [] [] [] []]; reflexivity. Qed.

Lemma toLowerCase_replace_backslashes (s : string) :
  toLowerCase (replace_backslashes s) = replace_backslashes (toLowerCase s).
Proof.
  induction s as [|c s IH]; [reflexivity|].
  cbn [toLowerCase replace_backslashes]. now rewrite IH, lower_char_replace.
Qed.

Lemma toLowerCase_slice_drop_last (s : string) :
  toLowerCase (slice_drop_last s) = slice_drop_last (toLowerCase s).
Proof.
  induction s as [|c s IH]; [reflexivity|].
  destruct s as [|d s]; [reflexivity|].
  change (slice_drop_last (String c (String d s)))
    with (String c (slice_drop_last (String d s))).
  change (toLowerCase (String c (String d s)))
    with (String (lower_char c) (toLowerCase (String d s))).
  cbn [toLowerCase] in *. cbn [slice_drop_last] in *. now rewrite IH.
Qed.

Lemma toLowerCase_strip_loop (fuel : nat) (s : string) :
  toLowerCase (strip_loop fuel s) = strip_loop fuel (toLowerCase s).
Proof.
  revert s. induction fuel as [|fuel IH]; intros s; [reflexivity|].
  cbn [strip_loop]. unfold Js.length.
  rewrite toLowerCase_length, toLowerCase_endsWith_slash, toLowerCase_drive_root.
  destruct ((1 <? Z.of_nat (String.length s)) && endsWith_slash s); [|reflexivity].
  destruct (is_drive_root s); [reflexivity|].
  now rewrite IH, toLowerCase_slice_drop_last.
Qed.

Lemma toLowerCase_strip_trailing_slashes (s : string) :
  toLowerCase (strip_trailing_slashes s) = strip_trailing_slashes (toLowerCase s).
Proof.
  unfold strip_trailing_slashes. now rewrite toLowerCase_strip_loop, toLowerCase_length.
Qed.
End NormalizePathAnyPlatform.

(** X3: on every platform, a non-empty path that [path.resolve] takes to a
    non-empty string has a non-empty identity: the loop that strips trailing
    slashes never empties the path. *)
Theorem normalizePath_not_empty
    (resolve : string -> string) (win32 : bool) (p : string) :
  p <> "" -> resolve p <> "" -> Utils.normalizePath resolve win32 p <> "".
Proof.
  intros Hp Hr. rewrite normalizePath_nonempty by exact Hp.
  assert (H : Utils.strip_trailing_slashes (Utils.replace_backslashes (resolve p)) <> "").
  { apply strip_loop_not_empty, replace_backslashes_not_empty, Hr. }
  destruct win32; [now apply toLowerCase_not_empty | exact H].
Qed.

Lemma normalizePath_not_empty_witness :
  Utils.normalizePath (Utils.Posix.resolve "/") false "///" <> "".
Proof.
  apply (normalizePath_not_empty (Utils.Posix.resolve "/") false "///").
  - discriminate.
  - vm_compute. discriminate.
Defined.

(** X4: on Windows the identity of every path holds no upper-case ASCII
    letter, whatever [path.resolve] returns. *)
Theorem normalizePath_win32_lower_case (resolve : string -> string) (p : string) :
  has_upper (Utils.normalizePath resolve true p) = false.
Proof.
  destruct (decide (p = "")) as [->|Hp]; [reflexivity|].
  rewrite normalizePath_nonempty by exact Hp.
  apply toLowerCase_no_upper.
Qed.

Example normalizePath_win32_lower_case_users :
  Utils.normalizePath (fun p => "C:\Users\" +:+ p) true "Me\Repo" = "c:/users/me/repo".
Proof. vm_compute. reflexivity. Qed.

(** X5: on Windows, two non-empty paths whose resolved forms differ only in
    the case of ASCII letters have the same identity. *)
Theorem normalizePath_win32_case_insensitive
    (resolve : string -> string) (p q : string) :
  p <> "" -> q <> "" ->
  Utils.toLowerCase (resolve p) = Utils.toLowerCase (resolve q) ->
  Utils.normalizePath resolve true p = Utils.normalizePath resolve true q.
Proof.
  intros Hp Hq Hcase. rewrite !normalizePath_nonempty by assumption.
  rewrite !toLowerCase_strip_trailing_slashes, !toLowerCase_replace_backslashes.
  now rewrite Hcase.
Qed.

Lemma normalizePath_win32_case_insensitive_witness :
  Utils.normalizePath (fun p => p) true "C:\Repo\Src"
  = Utils.normalizePath (fun p => p) true "c:\REPO\src".
Proof.
  apply (normalizePath_win32_case_insensitive (fun p => p));
    [discriminate | discriminate | reflexivity].
Defined.

(** X6: a drive root keeps its slash: when the resolved path, with its
    backslashes converted, is a drive root such as [C:/], the identity is that
    root (lower-cased on Windows) and still ends with the slash. *)
Theorem normalizePath_keeps_drive_root
    (resolve : string -> string) (win32 : bool) (p : string) :
  p <> "" ->
  Utils.is_drive_root (Utils.replace_backslashes (resolve p)) = true ->
  Utils.normalizePath resolve win32 p
  = (if win32 then Utils.toLowerCase else fun s => s)
      (Utils.replace_backslashes (resolve p)) /\
  Utils.endsWith_slash (Utils.normalizePath resolve win32 p) = true.
Proof.
  intros Hp Hroot. rewrite normalizePath_nonempty by exact Hp.
  set (r := Utils.replace_backslashes (resolve p)) in *.
  assert (Hstrip : Utils.strip_trailing_slashes r = r).
  { destruct r as [|c [|d [|e [|f r]]]]; try discriminate Hroot.
    unfold Utils.strip_trailing_slashes. cbn [String.length Utils.strip_loop].
    rewrite Hroot.
    now destruct ((1 <? Js.length (String c (String d (String e ""))))
                  && Utils.endsWith_slash (String c (String d (String e "")))). }
  rewrite Hstrip.
  assert (Hend : Utils.endsWith_slash r = true).
  { destruct r as [|c [|d [|e [|f r]]]]; try discriminate Hroot.
    cbn [Utils.is_drive_root] in Hroot.
    apply andb_prop in Hroot as [_ He]. exact He. }
  split; [reflexivity|].
  destruct win32; [now rewrite toLowerCase_endsWith_slash | exact Hend].
Qed.

Lemma normalizePath_keeps_drive_root_witness :
  Utils.normalizePath (fun _ => "C:\") true "C:" = "c:/".
Proof.
  destruct (normalizePath_keeps_drive_root (fun _ => "C:\") true "C:")
    as [Heq _]; [discriminate | reflexivity |].
  rewrite Heq. reflexivity.
Defined.

(** ** [normalizePath] on POSIX *)

(** X9: on POSIX, when the working directory is absolute and holds no
    backslash, the identity of a non-empty path without a backslash is what
    [path.resolve] returns for it: the root followed by segments that are not
    empty, not [.] and not [..], joined by single slashes. (A backslash in
    the working directory is converted after the resolution, as in C6, and
    can leave a [..] segment in the identity.) *)
Theorem normalizePath_posix_canonical (cwd p : string) :
  Utils.Posix.isAbsolute cwd = true ->
  has_backslash cwd = false ->
  has_backslash p = false ->
  p <> "" ->
  Utils.normalizePath (Utils.Posix.resolve cwd) false p = Utils.Posix.resolve cwd p /\
  exists segs,
    Forall normal_segment segs /\
    Utils.normalizePath (Utils.Posix.resolve cwd) false p
    = "/" +:+ String.concat "/" segs.
Proof.
  intros Hcwd Hc Hb Hp.
  pose proof (normalizePath_posix_resolve cwd p Hcwd Hc Hb Hp) as Hres.
  split; [exact Hres|].
  destruct (resolve_shape cwd p Hcwd) as (full & Hshape & _).
  exists (Utils.Posix.normalizeString false (Utils.Posix.split full)).
  split; [apply normalizeString_normal|].
  now rewrite Hres.
Qed.

Lemma normalizePath_posix_canonical_witness :
  Utils.normalizePath (Utils.Posix.resolve "/home/u") false "./docs/../src//lib/"
  = Utils.Posix.resolve "/home/u" "./docs/../src//lib/".
Proof.
  apply (normalizePath_posix_canonical "/home/u" "./docs/../src//lib/");
    [reflexivity | reflexivity | reflexivity | discriminate].
Defined.

Lemma normalizePath_posix_idempotent_witness :
  Utils.normalizePath (Utils.Posix.resolve "/home/u") false
    (Utils.normalizePath (Utils.Posix.resolve "/home/u") false "docs/../src/")
  = Utils.normalizePath (Utils.Posix.resolve "/home/u") false "docs/../src/".
Proof.
  apply (normalizePath_posix_idempotent "/home/u" "docs/../src/");
    reflexivity.
Defined.

Lemma normalizePath_posix_trailing_slash_witness :
  Utils.normalizePath (Utils.Posix.resolve "/home/u") false ("my\repo" +:+ "/")
  = Utils.normalizePath (Utils.Posix.resolve "/home/u") false "my\repo".
Proof.
  apply (normalizePath_posix_trailing_slash "/home/u" "my\repo" false).
  discriminate.
Defined.

(** ** The Vertex AI provider: requests, [embed] and the registry *)

Section ProviderFacts.
Import Js VertexAI.

Lemma map_throwing_inv (embs : list ContentEmbedding) (vectors : list EmbeddingVector) :
  map_throwing to_vector embs = Normal vectors -> Forall2 carries embs vectors.
Proof.
  revert vectors. induction embs as [|e embs IH]; intros vectors; cbn [map_throwing].
  - intros [= <-]. constructor.
  - unfold to_vector at 1. destruct (values e) as [x|] eqn:Ex; [|discriminate].
    destruct (map_throwing to_vector embs) as [vs|]; [|discriminate].
    intros [= <-]. constructor; [|now apply IH].
    split; [exact Ex | reflexivity].
Qed.

Lemma embed_failure_cause (e : Thrown) :
  embed_failure e = embed_error (reported_cause e).
Proof. now destruct e. Qed.

Lemma or_else_empty (d : string) : or_else "" d = d.
Proof. reflexivity. Qed.
End ProviderFacts.

(** X10: when [embedBatch] returns, the backend returned a list of
    embeddings that all carry values, and the result holds one vector for
    each of them, in their order, each with [dimension] equal to the length
    of its [vector] — also when the backend returned more or fewer embeddings
    than there were texts: their number is not checked. *)
Theorem embedBatch_returns_backend_vectors
    (embedContent :
       VertexAI.GoogleGenAI -> VertexAI.EmbedContentParameters ->
       Js.Completion VertexAI.EmbedContentResponse)
    (preprocessTexts : Z -> list string -> list string)
    (self : VertexAI.VertexAIEmbedding) (texts : list string)
    (vectors : list VertexAI.EmbeddingVector) :
  VertexAI.embedBatch embedContent preprocessTexts self texts = Js.Normal vectors ->
  exists response embs,
    embedContent (VertexAI.client self)
      (VertexAI.batch_request preprocessTexts self texts) = Js.Normal response /\
    VertexAI.embeddings response = Some embs /\
    Forall2 carries embs vectors /\
    List.length vectors = List.length embs /\
    Forall (fun v => VertexAI.vec_dimension v
                     = Z.of_nat (List.length (VertexAI.vector v))) vectors.
Proof.
  unfold VertexAI.embedBatch, VertexAI.embedBatch_try.
  destruct (embedContent _ _) as [response|e]; [|discriminate].
  destruct (VertexAI.embeddings response) as [embs|] eqn:Hembs; [|discriminate].
  destruct (VertexAI.map_throwing VertexAI.to_vector embs) as [vs|] eqn:Hmap;
    [|discriminate].
  intros [= <-]. apply map_throwing_inv in Hmap.
  exists response, embs.
  split; [reflexivity|]. split; [exact Hembs|]. split; [exact Hmap|]. split.
  - symmetry. eapply Forall2_length, Hmap.
  - clear -Hmap. induction Hmap as [|e v es vs [_ Hv] _ IH]; constructor; auto.
Qed.

Lemma embedBatch_returns_backend_vectors_witness :
  exists embs,
    Forall2 carries embs
      [ {| VertexAI.vector := [1%Q]; VertexAI.vec_dimension := 1 |} ] /\
    List.length embs = 1%nat.
Proof.
  destruct (embedBatch_returns_backend_vectors
              (fun _ _ => Js.Normal
                 {| VertexAI.embeddings :=
                      Some [ {| VertexAI.values := Some [1%Q] |} ] |})
              (fun _ texts => texts) gemini_provider ["a"; "b"]
              [ {| VertexAI.vector := [1%Q]; VertexAI.vec_dimension := 1 |} ])
    as (response & embs & _ & _ & Hcarries & Hlen & _).
  - reflexivity.
  - exists embs. split; [exact Hcarries | now rewrite <- Hlen].
Defined.

(** X11: [embed] returns the vector of the first embedding of the response,
    with [dimension] equal to its length, whatever else the response holds;
    and whenever it fails — the backend throws, the response has no
    embeddings, the list is empty, or the first has no values — it throws an
    [Error] whose message starts with ["Vertex AI embedding failed: "]. *)
Theorem embed_first_or_error
    (embedContent :
       VertexAI.GoogleGenAI -> VertexAI.EmbedContentParameters ->
       Js.Completion VertexAI.EmbedContentResponse)
    (preprocessText : Z -> string -> string)
    (self : VertexAI.VertexAIEmbedding) (text : string) :
  let outcome := VertexAI.embed embedContent preprocessText self text in
  let call :=
    embedContent (VertexAI.client self)
      (VertexAI.embed_request preprocessText self text) in
  (forall v,
     outcome = Js.Normal v <->
     exists response first rest,
       call = Js.Normal response /\
       VertexAI.embeddings response = Some (first :: rest) /\
       carries first v) /\
  (forall e,
     outcome = Js.Throw e ->
     exists cause, e = embed_error cause) /\
  (forall e, call = Js.Throw e -> outcome = Js.Throw (embed_error (reported_cause e))).
Proof.
  intros outcome call. subst outcome.
  unfold VertexAI.embed, VertexAI.embed_try. fold call.
  destruct call as [response|e0].
  - destruct (VertexAI.embeddings response) as [[|first rest]|] eqn:Hembs.
    + split; [|split].
      * intros v. split; [discriminate|].
        intros (r & f & rs & [= <-] & Hf & _). congruence.
      * intros e [= <-]. eexists. apply embed_failure_cause.
      * discriminate.
    + destruct (VertexAI.values first) as [vs|] eqn:Hvals.
      * split; [|split]; [|discriminate|discriminate].
        intros v. split.
        -- intros [= <-]. exists response, first, rest. repeat split; auto.
        -- intros (r & f & rs & [= <-] & Hf & [Hv Hd]).
           rewrite Hembs in Hf. injection Hf as <- <-.
           rewrite Hvals in Hv. injection Hv as Hv.
           destruct v as [vec d]. cbn in *. subst. reflexivity.
      * split; [|split].
        -- intros v. split; [discriminate|].
           intros (r & f & rs & [= <-] & Hf & [Hv _]).
           rewrite Hembs in Hf. injection Hf as <- <-. congruence.
        -- intros e [= <-]. eexists. apply embed_failure_cause.
        -- discriminate.
    + split; [|split].
      * intros v. split; [discriminate|].
        intros (r & f & rs & [= <-] & Hf & _). congruence.
      * intros e [= <-]. eexists. apply embed_failure_cause.
      * discriminate.
  - split; [|split].
    + intros v. split; [discriminate|]. intros (r & f & rs & H & _). discriminate.
    + intros e [= <-]. eexists. apply embed_failure_cause.
    + intros e [= <-]. now rewrite embed_failure_cause.
Qed.

Lemma embed_first_or_error_witness :
  VertexAI.embed
    (fun _ _ => Js.Normal
       {| VertexAI.embeddings :=
            Some [ {| VertexAI.values := Some [1%Q; 0%Q] |};
                   {| VertexAI.values := None |} ] |})
    (fun _ text => text) gemini_provider "a"
  = Js.Normal {| VertexAI.vector := [1%Q; 0%Q]; VertexAI.vec_dimension := 2 |}.
Proof.
  destruct (embed_first_or_error
              (fun _ _ => Js.Normal
                 {| VertexAI.embeddings :=
                      Some [ {| VertexAI.values := Some [1%Q; 0%Q] |};
                             {| VertexAI.values := None |} ] |})
              (fun _ text => text) gemini_provider "a") as (Hok & _ & _).
  apply Hok. eexists _, _, _. repeat split.
Defined.

(** X12: for every provider the constructor returns, the output
    dimensionality sent with each request, of [embed] and of [embedBatch], is
    the provider's [getDimension()]. *)
Theorem request_dimension_is_getDimension
    (registry : gmap string VertexAI.ModelInfo) (env : gmap string string)
    (config : VertexAI.VertexAIEmbeddingConfig)
    (self : VertexAI.VertexAIEmbedding)
    (preprocessTexts : Z -> list string -> list string)
    (preprocessText : Z -> string -> string)
    (texts : list string) (text : string) :
  VertexAI.constructor registry env config = Js.Normal self ->
  VertexAI.req_outputDimensionality
    (VertexAI.batch_request preprocessTexts self texts)
  = VertexAI.getDimension self /\
  VertexAI.req_outputDimensionality
    (VertexAI.embed_request preprocessText self text)
  = VertexAI.getDimension self.
Proof.
  intros Hctor.
  apply constructor_inv in Hctor as (p & _ & _ & Hcfg & _ & Hdim).
  unfold VertexAI.batch_request, VertexAI.embed_request, VertexAI.getDimension.
  cbn [VertexAI.req_outputDimensionality]. rewrite Hcfg.
  unfold VertexAI.or_number.
  destruct (VertexAI.outputDimensionality config) as [d|]; [|split; reflexivity].
  destruct (Js.truthy_number d); [|split; reflexivity].
  rewrite Hdim. split; reflexivity.
Qed.

Lemma request_dimension_is_getDimension_witness :
  VertexAI.req_outputDimensionality
    (VertexAI.batch_request (fun _ texts => texts) gemini_provider ["a"])
  = VertexAI.getDimension gemini_provider.
Proof.
  destruct (request_dimension_is_getDimension VertexAI.getSupportedModels ∅
              (VertexAI.config gemini_provider) gemini_provider
              (fun _ texts => texts) (fun _ text => text) ["a"] "a") as [H _].
  - vm_compute. reflexivity.
  - exact H.
Defined.

(** X13: the constructor does not check the override against the supported
    dimensions: with a non-zero override that the model's registry entry
    does not list, construction still succeeds with that dimension, and the
    provider's own [isDimensionSupported] rejects its [getDimension()]. *)
Theorem override_is_not_validated
    (registry : gmap string VertexAI.ModelInfo) (env : gmap string string)
    (config : VertexAI.VertexAIEmbeddingConfig)
    (self : VertexAI.VertexAIEmbedding)
    (override : Z) (info : VertexAI.ModelInfo) (dims : list Z) :
  VertexAI.constructor registry env config = Js.Normal self ->
  VertexAI.outputDimensionality config = Some override ->
  override <> 0 ->
  registry !! VertexAI.or_else (VertexAI.model config) VertexAI.default_model
    = Some info ->
  VertexAI.supportedDimensions info = Some dims ->
  override ∉ dims ->
  VertexAI.getDimension self = override /\
  VertexAI.isDimensionSupported registry self (VertexAI.getDimension self) = false.
Proof.
  intros Hctor Hov Hnz Hinfo Hdims Hnot.
  apply constructor_inv in Hctor as (p & _ & _ & Hcfg & _ & Hdim).
  assert (Hd : VertexAI.getDimension self = override).
  { unfold VertexAI.getDimension. rewrite Hdim, Hov. unfold Js.truthy_number.
    destruct (override =? 0) eqn:E; [apply Z.eqb_eq in E; contradiction | reflexivity]. }
  split; [exact Hd|]. rewrite Hd.
  unfold VertexAI.isDimensionSupported, VertexAI.getSupportedDimensions.
  rewrite Hcfg, Hinfo, Hdims. now apply bool_decide_eq_false_2.
Qed.

Lemma override_is_not_validated_witness :
  let config :=
    {| VertexAI.model := "gemini-embedding-001";
       VertexAI.projectId := Some "my-project"; VertexAI.location := None;
       VertexAI.outputDimensionality := Some 1000 |} in
  let self :=
    {| VertexAI.client :=
         {| VertexAI.vertexai := true; VertexAI.project := "my-project";
            VertexAI.client_location := "global" |};
       VertexAI.config := config;
       VertexAI.dimension := 1000; VertexAI.maxTokens := 2048 |} in
  VertexAI.constructor VertexAI.getSupportedModels ∅ config = Js.Normal self /\
  VertexAI.getDimension self = 1000 /\
  VertexAI.isDimensionSupported VertexAI.getSupportedModels self
    (VertexAI.getDimension self) = false.
Proof.
  intros config self.
  assert (Hctor : VertexAI.constructor VertexAI.getSupportedModels ∅ config
                  = Js.Normal self) by (vm_compute; reflexivity).
  split; [exact Hctor|].
  apply (override_is_not_validated VertexAI.getSupportedModels ∅ config self 1000
           {| VertexAI.info_dimension := 3072; VertexAI.contextLength := 2048;
              VertexAI.description :=
                "Gemini text embedding model served via Vertex AI (recommended)";
              VertexAI.supportedDimensions := Some [3072; 1536; 768; 256] |}
           [3072; 1536; 768; 256]).
  - exact Hctor.
  - reflexivity.
  - lia.
  - vm_compute. reflexivity.
  - reflexivity.
  - intros Hin. apply list_elem_of_In in Hin. simpl in Hin. lia.
Defined.

(** X14: with the static registry of [getSupportedModels], a provider built
    without an override (none, or the falsy [0]) always counts its own
    [getDimension()] among the supported dimensions, whatever the model
    name. *)
Theorem own_dimension_is_supported
    (env : gmap string string) (config : VertexAI.VertexAIEmbeddingConfig)
    (self : VertexAI.VertexAIEmbedding) :
  (forall d, VertexAI.outputDimensionality config = Some d -> d = 0) ->
  VertexAI.constructor VertexAI.getSupportedModels env config = Js.Normal self ->
  VertexAI.isDimensionSupported VertexAI.getSupportedModels self
    (VertexAI.getDimension self) = true.
Proof.
  intros Hno Hctor.
  apply constructor_inv in Hctor as (p & _ & _ & Hcfg & _ & Hdim).
  assert (Hdim' : VertexAI.dimension self =
    (VertexAI.updateDimensionForModel VertexAI.getSupportedModels
       (VertexAI.or_else (VertexAI.model config) VertexAI.default_model)).1).
  { rewrite Hdim. destruct (VertexAI.outputDimensionality config) as [d|]; [|reflexivity].
    now rewrite (Hno d eq_refl). }
  unfold VertexAI.isDimensionSupported, VertexAI.getSupportedDimensions,
    VertexAI.getDimension.
  rewrite Hcfg, Hdim'. unfold VertexAI.updateDimensionForModel.
  set (m := VertexAI.or_else (VertexAI.model config) VertexAI.default_model).
  unfold VertexAI.getSupportedModels.
  destruct (decide (m = "gemini-embedding-001")) as [->|Hne].
  - rewrite lookup_singleton_eq. reflexivity.
  - rewrite lookup_singleton_ne by congruence.
    apply bool_decide_eq_true_2, list_elem_of_singleton. reflexivity.
Qed.

Lemma own_dimension_is_supported_witness :
  VertexAI.isDimensionSupported VertexAI.getSupportedModels gemini_provider
    (VertexAI.getDimension gemini_provider) = true.
Proof.
  apply (own_dimension_is_supported ∅ (VertexAI.config gemini_provider)).
  - intros d Hd. discriminate Hd.
  - vm_compute. reflexivity.
Defined.

(** X15: an empty model name selects the default model: the constructor
    fails or succeeds as it does for ["gemini-embedding-001"], and on success
    the two providers have the same client, dimension, token limit and
    supported dimensions and send the same model name and dimensionality. *)
Theorem empty_model_selects_default
    (registry : gmap string VertexAI.ModelInfo) (env : gmap string string)
    (project location : option string) (override : option Z)
    (preprocessTexts : Z -> list string -> list string) (texts : list string) :
  let unnamed :=
    {| VertexAI.model := ""; VertexAI.projectId := project;
       VertexAI.location := location; VertexAI.outputDimensionality := override |} in
  let named :=
    {| VertexAI.model := VertexAI.default_model; VertexAI.projectId := project;
       VertexAI.location := location; VertexAI.outputDimensionality := override |} in
  match VertexAI.constructor registry env unnamed,
        VertexAI.constructor registry env named with
  | Js.Normal a, Js.Normal b =>
      VertexAI.client a = VertexAI.client b /\
      VertexAI.getDimension a = VertexAI.getDimension b /\
      VertexAI.maxTokens a = VertexAI.maxTokens b /\
      VertexAI.getSupportedDimensions registry a
        = VertexAI.getSupportedDimensions registry b /\
      VertexAI.batch_request preprocessTexts a texts
        = VertexAI.batch_request preprocessTexts b texts
  | Js.Throw e1, Js.Throw e2 => e1 = e2
  | _, _ => False
  end.
Proof.
  intros unnamed named. unfold VertexAI.constructor.
  change (VertexAI.resolve_projectId env named)
    with (VertexAI.resolve_projectId env unnamed).
  change (VertexAI.resolve_location env named)
    with (VertexAI.resolve_location env unnamed).
  destruct (VertexAI.resolve_projectId env unnamed) as [p|]; [|reflexivity].
  destruct (Js.truthy_string p); cbn [negb]; [|reflexivity].
  cbn [VertexAI.model unnamed named VertexAI.outputDimensionality].
  rewrite or_else_empty.
  change (VertexAI.or_else VertexAI.default_model VertexAI.default_model)
    with VertexAI.default_model.
  destruct (VertexAI.updateDimensionForModel registry VertexAI.default_model)
    as [dim tok].
  repeat split.
Qed.

(** ** [printMcpResponse] *)

Section PrintFacts.
Import Cli.

Lemma response_text_not_empty (result : option ToolResult) :
  response_text result <> "".
Proof.
  unfold response_text.
  destruct (String.concat blank_line (pieces_of result)); cbn; discriminate.
Qed.

Lemma filter_none {A} (P : A -> Prop) `{forall x, Decision (P x)} (l : list A) :
  Forall (fun x => ~ P x) l -> filter P l = [].
Proof.
  induction 1 as [|x l Hx _ IH]; [reflexivity|].
  rewrite filter_cons. destruct (decide (P x)); [contradiction | exact IH].
Qed.
End PrintFacts.

(** X16: [printMcpResponse] makes exactly one console call, [console.error]
    when the result is an error and [console.log] otherwise, and leaves the
    other stream as it was. The text it passes is never the empty string:
    without a text element in [content] (or without a result, or with a
    [content] that is no array) the text is ["No output."]. The text is the
    text elements joined by two line feeds, so it can span several lines. *)
Theorem printMcpResponse_one_call
    (result : option Cli.ToolResult) (t : Cli.Terminal) :
  let t' := Cli.printMcpResponse result t in
  let is_error := match result with Some r => Cli.isError r | None => false end in
  Cli.response_text result <> "" /\
  Cli.stdout t' ++ Cli.stderr t'
    = (if is_error
       then Cli.stdout t ++ Cli.stderr t ++ [Cli.response_text result]
       else (Cli.stdout t ++ [Cli.response_text result]) ++ Cli.stderr t) /\
  (if is_error then Cli.stdout t' = Cli.stdout t else Cli.stderr t' = Cli.stderr t) /\
  (match result with
   | Some r =>
       match Cli.content r with
       | Some items =>
           Forall (fun c => Cli.is_text_item c = false) items ->
           Cli.response_text result = "No output."
       | None => Cli.response_text result = "No output."
       end
   | None => Cli.response_text result = "No output."
   end).
Proof.
  intros t' is_error. split; [apply response_text_not_empty|].
  subst t' is_error. unfold Cli.printMcpResponse.
  split; [|split].
  - destruct result as [r|]; [destruct (Cli.isError r)|]; reflexivity.
  - destruct result as [r|]; [destruct (Cli.isError r)|]; reflexivity.
  - destruct result as [r|]; [|reflexivity].
    unfold Cli.response_text, Cli.pieces_of.
    destruct (Cli.content r) as [items|]; [|reflexivity].
    intros Hnone. rewrite filter_none; [reflexivity|].
    eapply Forall_impl; [exact Hnone|]. intros c Hc. cbn. congruence.
Qed.

Example printMcpResponse_two_texts :
  Cli.printMcpResponse
    (Some {| Cli.content :=
               Some [Some {| Cli.item_type := Some "text"; Cli.item_text := Some "a" |};
                     Some {| Cli.item_type := Some "text"; Cli.item_text := Some "b" |}];
             Cli.isError := false |})
    {| Cli.stdout := []; Cli.stderr := []; Cli.exitCode := None |}
  = {| Cli.stdout := ["a" +:+ Cli.blank_line +:+ "b"]; Cli.stderr := [];
       Cli.exitCode := None |}.
Proof. vm_compute. reflexivity. Qed.

Example printMcpResponse_two_empty_texts :
  Cli.printMcpResponse
    (Some {| Cli.content :=
               Some [Some {| Cli.item_type := Some "text"; Cli.item_text := Some "" |};
                     Some {| Cli.item_type := Some "text"; Cli.item_text := Some "" |}];
             Cli.isError := true |})
    {| Cli.stdout := []; Cli.stderr := []; Cli.exitCode := None |}
  = {| Cli.stdout := []; Cli.stderr := [Cli.blank_line]; Cli.exitCode := Some 1 |}.
Proof. vm_compute. reflexivity. Qed.

(** X17: over any sequence of responses printed in turn, [process.exitCode]
    ends at 1 when at least one of them was an error and is otherwise left as
    it was: a later success never clears it; and one console call is made
    for each response (the two streams together receive as many texts as
    there are responses). *)
Theorem printMcpResponse_exit_code
    (results : list (option Cli.ToolResult)) (t : Cli.Terminal) :
  let is_error (result : option Cli.ToolResult) :=
    match result with Some r => Cli.isError r | None => false end in
  let t' := fold_left (fun t result => Cli.printMcpResponse result t) results t in
  Cli.exitCode t' = (if existsb is_error results then Some 1 else Cli.exitCode t) /\
  (List.length (Cli.stdout t') + List.length (Cli.stderr t')
   = List.length (Cli.stdout t) + List.length (Cli.stderr t)
     + List.length results)%nat.
Proof.
  intros is_error. cbv zeta. revert t.
  induction results as [|result results IH]; intros t.
  - cbn. split; [reflexivity | lia].
  - cbn [fold_left existsb]. destruct (IH (Cli.printMcpResponse result t)) as [IH1 IH2].
    rewrite IH1, IH2. clear IH IH1 IH2.
    unfold Cli.printMcpResponse. subst is_error. cbv beta.
    destruct (match result with Some r => Cli.isError r | None => false end);
      cbn [Cli.stdout Cli.stderr Cli.exitCode orb].
    + split; [now destruct (existsb _ results)|].
      rewrite List.length_app. cbn [List.length]. lia.
    + split; [reflexivity|]. rewrite List.length_app. cbn [List.length]. lia.
Qed.

(** ** [runIndex]: outcomes and effects *)

Section RunFacts.
Import Js Snapshot Cli.

Lemma saved_at_once_skip (quiet rest : list Effect) :
  Forall (fun e => is_transition e = false) quiet ->
  saved_at_once (quiet ++ rest) = saved_at_once rest.
Proof.
  induction 1 as [|e quiet He _ IH]; [reflexivity|].
  cbn [app]. destruct e; try discriminate He; cbn; exact IH.
Qed.

Lemma progress_is_quiet (events : list Progress) :
  Forall (fun e => is_transition e = false) (rev (OnProgress <$> events)).
Proof.
  apply Forall_rev, Forall_fmap, Forall_forall. intros p _. reflexivity.
Qed.

Lemma pipeline_calls_app (a b : list Effect) :
  pipeline_calls (a ++ b) = (pipeline_calls a + pipeline_calls b)%nat.
Proof. unfold pipeline_calls. now rewrite List.filter_app, List.length_app. Qed.

Lemma pipeline_calls_progress (events : list Progress) :
  pipeline_calls (rev (OnProgress <$> events)) = 0%nat.
Proof.
  unfold pipeline_calls. induction events as [|p events IH]; [reflexivity|].
  cbn [fmap list_fmap rev]. change (rev ?l) with (List.rev l) in *.
  cbn [List.rev]. rewrite List.filter_app, List.length_app.
  change (List.rev ?l) with (rev l). rewrite IH. reflexivity.
Qed.

Lemma progress_paths (identity : string) (events : list Progress) :
  Forall (fun e => forall p, effect_path e = Some p -> p = identity)
         (rev (OnProgress <$> events)).
Proof.
  apply Forall_rev, Forall_fmap, Forall_forall. intros x _ p. discriminate.
Qed.
End RunFacts.

(** X18: how a run ends, from the point where the engine exists
    ([createEngine()] has returned) and with the synchronous calls of the run
    ([statSync], [addCustomExtensions], [addCustomIgnorePatterns] and the
    methods of the snapshot manager) returning, as this development takes
    them. Such a run returns only when the four checks pass and the
    pipeline succeeds; when it rejects, [hasIndex] or [checkCollectionLimit]
    rejected and the error is theirs: an error of the pipeline is caught and
    never rejects the run; when it ends the process, the exit code is 1 and
    either a check failed or the pipeline threw. The three cases exclude one
    another, so each of them holds exactly then. *)
Theorem runIndex_outcome
    (resolve : string -> string) (win32 : bool) (env : Cli.Collaborators)
    (pathArg : string) (options : Cli.Options) (w : Cli.World) :
  let identity := Utils.ensureAbsolutePath resolve win32 pathArg in
  let checks :=
    preflight env identity (Cli.opt_force options) (Snapshot.load (Cli.persisted w)) in
  let run := pipeline_run env identity options w in
  match (Cli.runIndex resolve win32 env pathArg options w).1 with
  | Cli.Value _ => checks = Passes /\ exists stats, Cli.result run = Js.Normal stats
  | Cli.Thrown e => checks = Rejects e
  | Cli.Exited code =>
      code = 1 /\
      ((exists f, checks = Fails f) \/
       (checks = Passes /\ exists error, Cli.result run = Js.Throw error))
  end.
Proof.
  intros identity checks run.
  destruct checks as [f|e|] eqn:Hpre; subst checks.
  - rewrite (runIndex_fails resolve win32 env pathArg options w f Hpre).
    cbn [fst]. split; [reflexivity|]. left. now exists f.
  - rewrite (runIndex_rejects resolve win32 env pathArg options w e Hpre).
    reflexivity.
  - rewrite (runIndex_passes resolve win32 env pathArg options w Hpre).
    fold identity run.
    destruct (Cli.result run) as [stats|error]; cbn [fst].
    + split; [reflexivity|]. now exists stats.
    + split; [reflexivity|]. right. split; [reflexivity|]. now exists error.
Qed.

(** X19: in every run, each save of the snapshot comes right after a set of
    a record and each set of a record is followed at once by a save (on the
    run's effects, latest first, [saved_at_once] holds), and the pipeline is
    called at most once, and exactly once when the four checks pass. *)
Theorem runIndex_saves_at_once
    (resolve : string -> string) (win32 : bool) (env : Cli.Collaborators)
    (pathArg : string) (options : Cli.Options) (w : Cli.World) :
  let identity := Utils.ensureAbsolutePath resolve win32 pathArg in
  let checks :=
    preflight env identity (Cli.opt_force options) (Snapshot.load (Cli.persisted w)) in
  exists effects,
    Cli.trace (Cli.runIndex resolve win32 env pathArg options w).2
      = effects ++ Cli.trace w /\
    saved_at_once effects = true /\
    pipeline_calls effects = (match checks with Passes => 1%nat | _ => 0%nat end).
Proof.
  intros identity checks.
  destruct checks as [f|e|] eqn:Hpre; subst checks.
  - rewrite (runIndex_fails resolve win32 env pathArg options w f Hpre).
    cbn [snd Cli.trace]. fold identity.
    exists (Cli.ProcessExit 1 :: Cli.ConsoleError (failure_report env identity f)
            :: checks_made env identity f ++ [Cli.LoadSnapshot]).
    split; [now rewrite <- !app_comm_cons, <- app_assoc|].
    unfold checks_made.
    destruct f; try destruct (Cli.existsSync env identity); split; reflexivity.
  - rewrite (runIndex_rejects resolve win32 env pathArg options w e Hpre).
    cbn [snd Cli.trace]. fold identity.
    exists (checks_until_rejection env identity ++ [Cli.LoadSnapshot]).
    split; [now rewrite <- app_assoc|].
    unfold checks_until_rejection.
    destruct (Cli.hasIndex env identity); split; reflexivity.
  - rewrite (runIndex_passes resolve win32 env pathArg options w Hpre).
    fold identity.
    set (run := pipeline_run env identity options w).
    set (started :=
      [Cli.SaveSnapshot; Cli.SetCodebaseIndexing identity 0%Q;
       Cli.CheckCollectionLimit; Cli.HasIndex identity;
       Cli.GetCodebaseStatus identity; Cli.StatSync identity;
       Cli.ExistsSync identity; Cli.LoadSnapshot]).
    assert (Hshape : forall last_effects m,
      Cli.trace (finished_world env identity options w m last_effects)
      = (last_effects ++ rev (Cli.OnProgress <$> Cli.progress_events run)
         ++ Cli.IndexCodebase identity (Cli.opt_force options) :: started)
        ++ Cli.trace w).
    { intros last_effects m. unfold finished_world, started_trace.
      cbn [Cli.trace]. fold run. subst started.
      rewrite <- !app_assoc. cbn [app]. reflexivity. }
    destruct (Cli.result run) as [stats|error]; cbn [snd]; rewrite Hshape;
      eexists; (split; [reflexivity|]); cbn [app saved_at_once is_set andb negb];
      rewrite saved_at_once_skip by apply progress_is_quiet;
      (split; [reflexivity|]).
    + change (Cli.SaveSnapshot :: Cli.SetCodebaseIndexed identity stats :: ?l)
        with ([Cli.SaveSnapshot; Cli.SetCodebaseIndexed identity stats] ++ l).
      rewrite !pipeline_calls_app, pipeline_calls_progress. reflexivity.
    + change (Cli.ProcessExit 1 :: ?a :: Cli.SaveSnapshot :: ?b :: ?l)
        with ([Cli.ProcessExit 1; a; Cli.SaveSnapshot; b] ++ l).
      rewrite !pipeline_calls_app, pipeline_calls_progress. reflexivity.
Qed.

(** X20: every effect of a run that names a path — the file-system checks,
    the status read, the index check, the pipeline call and every set of a
    record — names the identity [ensureAbsolutePath(pathArg)], never the raw
    argument or another codebase. *)
Theorem runIndex_only_touches_identity
    (resolve : string -> string) (win32 : bool) (env : Cli.Collaborators)
    (pathArg : string) (options : Cli.Options) (w : Cli.World) :
  let identity := Utils.ensureAbsolutePath resolve win32 pathArg in
  exists effects,
    Cli.trace (Cli.runIndex resolve win32 env pathArg options w).2
      = effects ++ Cli.trace w /\
    Forall (fun e => forall p, effect_path e = Some p -> p = identity) effects.
Proof.
  intros identity.
  destruct (preflight env identity (Cli.opt_force options)
              (Snapshot.load (Cli.persisted w))) as [f|e|] eqn:Hpre.
  - rewrite (runIndex_fails resolve win32 env pathArg options w f Hpre).
    cbn [snd Cli.trace]. fold identity.
    exists (Cli.ProcessExit 1 :: Cli.ConsoleError (failure_report env identity f)
            :: checks_made env identity f ++ [Cli.LoadSnapshot]).
    split; [now rewrite <- !app_comm_cons, <- app_assoc|].
    unfold checks_made.
    destruct f; try destruct (Cli.existsSync env identity);
      repeat constructor; cbn; congruence.
  - rewrite (runIndex_rejects resolve win32 env pathArg options w e Hpre).
    cbn [snd Cli.trace]. fold identity.
    exists (checks_until_rejection env identity ++ [Cli.LoadSnapshot]).
    split; [now rewrite <- app_assoc|].
    unfold checks_until_rejection.
    destruct (Cli.hasIndex env identity); repeat constructor; cbn; congruence.
  - rewrite (runIndex_passes resolve win32 env pathArg options w Hpre).
    fold identity.
    set (run := pipeline_run env identity options w).
    assert (Hshape : forall last_effects m,
      Cli.trace (finished_world env identity options w m last_effects)
      = (last_effects ++ rev (Cli.OnProgress <$> Cli.progress_events run)
         ++ [Cli.IndexCodebase identity (Cli.opt_force options);
             Cli.SaveSnapshot; Cli.SetCodebaseIndexing identity 0%Q;
             Cli.CheckCollectionLimit; Cli.HasIndex identity;
             Cli.GetCodebaseStatus identity; Cli.StatSync identity;
             Cli.ExistsSync identity; Cli.LoadSnapshot])
        ++ Cli.trace w).
    { intros last_effects m. unfold finished_world, started_trace.
      cbn [Cli.trace]. fold run. rewrite <- !app_assoc. cbn [app]. reflexivity. }
    destruct (Cli.result run) as [stats|error]; cbn [snd]; rewrite Hshape;
      eexists; (split; [reflexivity|]);
      repeat apply Forall_app_2; try apply progress_paths;
      repeat constructor; cbn; congruence.
Qed.

(** X21: with [force] set, the answer of [hasIndex] does not matter: whether
    the backend says the index exists or not, the run has the same outcome
    and leaves the same state. *)
Theorem runIndex_force_ignores_hasIndex
    (resolve : string -> string) (win32 : bool) (env : Cli.Collaborators)
    (pathArg : string) (ext ignore : option (list string)) (w : Cli.World)
    (found missing : string -> bool) :
  let forced :=
    {| Cli.opt_force := true; Cli.opt_ext := ext; Cli.opt_ignore := ignore |} in
  Cli.runIndex resolve win32 (with_hasIndex env (fun p => Js.Normal (found p)))
    pathArg forced w
  = Cli.runIndex resolve win32 (with_hasIndex env (fun p => Js.Normal (missing p)))
      pathArg forced w.
Proof.
  intros forced.
  set (identity := Utils.ensureAbsolutePath resolve win32 pathArg).
  set (env1 := with_hasIndex env (fun p => Js.Normal (found p))).
  set (env2 := with_hasIndex env (fun p => Js.Normal (missing p))).
  assert (Hsame :
    preflight env1 identity (Cli.opt_force forced) (Snapshot.load (Cli.persisted w))
    = preflight env2 identity (Cli.opt_force forced) (Snapshot.load (Cli.persisted w))).
  { unfold preflight, env1, env2, with_hasIndex.
    cbn [Cli.existsSync Cli.isDirectory Cli.hasIndex Cli.checkCollectionLimit
         Cli.opt_force forced negb].
    now rewrite !andb_false_r. }
  destruct (preflight env1 identity (Cli.opt_force forced)
              (Snapshot.load (Cli.persisted w))) as [f|e|] eqn:Hpre;
    symmetry in Hsame.
  - rewrite (runIndex_fails resolve win32 env1 pathArg forced w f Hpre),
      (runIndex_fails resolve win32 env2 pathArg forced w f Hsame).
    reflexivity.
  - rewrite (runIndex_rejects resolve win32 env1 pathArg forced w e Hpre),
      (runIndex_rejects resolve win32 env2 pathArg forced w e Hsame).
    reflexivity.
  - rewrite (runIndex_passes resolve win32 env1 pathArg forced w Hpre),
      (runIndex_passes resolve win32 env2 pathArg forced w Hsame).
    reflexivity.
Qed.

(** X22: in every run whose four checks pass and whose pipeline returns
    stats, the run returns without writing to standard error or ending the
    process, its last two effects are the set of the record to indexed with
    those stats and the save, and the status query of a later process reads
    [indexed] with those stats and no error. *)
Theorem pipeline_success_is_persisted
    (resolve : string -> string) (win32 : bool) (env : Cli.Collaborators)
    (pathArg : string) (options : Cli.Options) (w : Cli.World)
    (stats : Snapshot.IndexStats) :
  let identity := Utils.ensureAbsolutePath resolve win32 pathArg in
  let run := pipeline_run env identity options w in
  preflight env identity (Cli.opt_force options)
    (Snapshot.load (Cli.persisted w)) = Passes ->
  Cli.result run = Js.Normal stats ->
  exists w' effects,
    Cli.runIndex resolve win32 env pathArg options w = (Cli.Value tt, w') /\
    Cli.trace w' =
      [Cli.SaveSnapshot; Cli.SetCodebaseIndexed identity stats] ++ effects
      ++ Cli.trace w /\
    Forall (fun e => forall m c, e <> Cli.ConsoleError m /\ e <> Cli.ProcessExit c)
           effects /\
    Snapshot.status <$> Cli.status_query w' identity = Some Snapshot.indexed /\
    Snapshot.lastIndexedStats <$> Cli.status_query w' identity = Some (Some stats) /\
    Snapshot.lastError <$> Cli.status_query w' identity = Some None.
Proof.
  intros identity run Hpre Hok.
  pose proof (runIndex_passes resolve win32 env pathArg options w Hpre) as Hrun.
  cbv zeta in Hrun. fold identity run in Hrun. rewrite Hok in Hrun.
  eexists _, (rev (Cli.OnProgress <$> Cli.progress_events run)
              ++ [Cli.IndexCodebase identity (Cli.opt_force options);
                  Cli.SaveSnapshot; Cli.SetCodebaseIndexing identity 0%Q;
                  Cli.CheckCollectionLimit; Cli.HasIndex identity;
                  Cli.GetCodebaseStatus identity; Cli.StatSync identity;
                  Cli.ExistsSync identity; Cli.LoadSnapshot]).
  split; [exact Hrun|]. split.
  { unfold finished_world, started_trace. cbn [Cli.trace]. fold run.
    rewrite <- !app_assoc. cbn [app]. reflexivity. }
  split.
  { apply Forall_app_2.
    - apply Forall_rev, Forall_fmap, Forall_forall. intros x _ m c.
      split; discriminate.
    - repeat constructor; discriminate. }
  unfold Cli.status_query, finished_world.
  cbn [Cli.persisted Snapshot.load default from_option id].
  unfold Snapshot.setIndexed, Snapshot.setIndexing.
  rewrite !lookup_insert_eq. repeat split.
Qed.

Lemma pipeline_success_is_persisted_witness :
  exists w',
    Cli.runIndex (Utils.Posix.resolve "/") false
      (repo_collaborators true success_with_42_files) "/repo" plain_options
      (fresh_process None) = (Cli.Value tt, w') /\
    Snapshot.lastIndexedStats <$> Cli.status_query w' "/repo"
    = Some (Some {| Snapshot.indexedFiles := 42; Snapshot.totalChunks := 210;
                    Snapshot.stats_status := "completed" |}).
Proof.
  destruct (pipeline_success_is_persisted (Utils.Posix.resolve "/") false
              (repo_collaborators true success_with_42_files) "/repo"
              plain_options (fresh_process None)
              {| Snapshot.indexedFiles := 42; Snapshot.totalChunks := 210;
                 Snapshot.stats_status := "completed" |})
    as (w' & effects & Hrun & _ & _ & _ & Hstats & _).
  - vm_compute. reflexivity.
  - reflexivity.
  - exists w'. split; [exact Hrun | exact Hstats].
Defined.
